(** * SaveEcoBot sensor platform: the fetch / validate / derive / filter core

    A shallow embedding of [sensor.py]: the pollutant and station models,
    the derivation of sensor records ([Station.sensors]), and the station
    registry ([StationsClient]) with its refresh, filtering and lookups.

    Conventions.
    - A Python [str] is a [string] holding its UTF-8 bytes: equality,
      concatenation and the code-point order of [sorted] are those of the
      bytes.
    - A Python [float] is a primitive [float]; it is only ever stored and
      copied, never computed with.
    - A [datetime] is its wall-clock reading in microseconds (the resolution
      of Python's [datetime]) together with its optional UTC offset; a
      [timedelta] is a number of microseconds.
    - A raised exception is the [Raise] outcome of the [result] monad.
    - What lives in libraries the platform imports (pydantic's scalar
      validators, [str.lower], [strftime], the unit constants of
      [homeassistant.const]) is gathered in the class [HostLib]. A validator
      accepts a value, rejects it, or lets an exception escape that the
      model constructor does not turn into a [ValidationError] (the
      [OverflowError] of [float] on an integer too large for a float). *)

From Stdlib Require Import ZArith Floats.PrimFloat Floats.SpecFloat Floats.FloatOps.
From stdpp Require Import base option list strings pretty gmap sorting.

Set Warnings "-register-all".

Open Scope Z_scope.

(** ** Exceptions and the error monad *)

Inductive exn : Type :=
  | IndexError
  | KeyError
  | TypeError
  | ValidationError
  | ClientConnectorError
  | TimeoutError
  | JSONDecodeError
  | OverflowError.

Inductive result (A : Type) : Type :=
  | Ok (a : A)
  | Raise (e : exn).

Arguments Ok {A} a.
Arguments Raise {A} e.

#[global] Instance result_ret : MRet result := λ A a, Ok a.

#[global] Instance result_bind : MBind result := λ A B k m,
  match m with
  | Ok a => k a
  | Raise e => Raise e
  end.

(** ** Dates and durations *)

Definition timedelta := Z.

Definition timedelta_hours (h : Z) : timedelta := h * 3600 * 1000000.
Definition timedelta_seconds (s : Z) : timedelta := s * 1000000.

(** [wall] is the naive reading (microseconds since 0001-01-01 00:00:00 on
    the datetime's own calendar), [tzinfo] the UTC offset of an aware
    datetime, [None] for a naive one. *)
Record datetime : Type := Datetime {
  wall : Z;
  tzinfo : option timedelta
}.

(** [datetime.datetime.now()] takes no time zone: its value is naive. *)
Definition naive (us : Z) : datetime := {| wall := us; tzinfo := None |}.

(** [a - b] on datetimes: Python refuses to mix naive and aware operands. *)
Definition datetime_sub (a b : datetime) : result timedelta :=
  match tzinfo a, tzinfo b with
  | None, None => Ok (wall a - wall b)
  | Some oa, Some ob => Ok ((wall a - oa) - (wall b - ob))
  | _, _ => Raise TypeError
  end.

(** ** Constants of the module *)

Definition SENSOR_DEPRECATION_HOURS : Z := 12.

(** ** Pollutants *)

Inductive PollutantType : Type :=
  | PM2_5
  | PM10
  | TEMPERATURE
  | HUMIDITY
  | PRESSURE
  | AQI.

#[global] Instance PollutantType_eq_dec : EqDecision PollutantType.
Proof. solve_decision. Defined.

(** The [value] of an enumeration member (what the feed carries). *)
Definition PollutantType_value (k : PollutantType) : string :=
  match k with
  | PM2_5 => "PM2.5"
  | PM10 => "PM10"
  | TEMPERATURE => "Temperature"
  | HUMIDITY => "Humidity"
  | PRESSURE => "Pressure"
  | AQI => "Air Quality Index"
  end.

(** The [name] of an enumeration member (its Python identifier). *)
Definition PollutantType_name (k : PollutantType) : string :=
  match k with
  | PM2_5 => "PM2_5"
  | PM10 => "PM10"
  | TEMPERATURE => "TEMPERATURE"
  | HUMIDITY => "HUMIDITY"
  | PRESSURE => "PRESSURE"
  | AQI => "AQI"
  end.

Record Pollutant : Type := mkPollutant {
  pol : PollutantType;
  unit : string;
  time : option datetime;
  value : option float;
  averaging : string
}.

(** ** The decoded feed *)

(** What [resp.json()] returns: Python values decoded from JSON. An object
    is kept as its key/value pairs in document order. *)
Inductive json : Type :=
  | JNull
  | JBool (b : bool)
  | JInt (n : Z)
  | JFloat (x : float)
  | JStr (s : string)
  | JArr (items : list json)
  | JObj (fields : list (string * json)).

(** [d.get(key)]: with a repeated key the decoder keeps the last value. *)
Fixpoint dict_get (key : string) (fields : list (string * json)) : option json :=
  match fields with
  | [] => None
  | (k, v) :: rest =>
      match dict_get key rest with
      | Some v' => Some v'
      | None => if decide (k = key) then Some v else None
      end
  end.

(** ** Library functions the platform relies on *)

(** What a validator of pydantic does with a value: it accepts it (as a value
    of the declared type), it rejects it (an error that the model collects
    into its [ValidationError]), or it lets an exception escape that the
    model does not catch. *)
Inductive validation (A : Type) : Type :=
  | Valid (a : A)
  | Invalid
  | Escapes (e : exn).

Arguments Valid {A} a.
Arguments Invalid {A}.
Arguments Escapes {A} e.

Class HostLib : Type := {
  (** [str.lower] *)
  str_lower : string → string;
  (** [datetime.strftime(t, "%d.%m.%Y, %H:%M:%S")] on the wall-clock reading *)
  strftime : Z → string;
  (** unit constants of [homeassistant.const] *)
  CONCENTRATION_MILLIGRAMS_PER_CUBIC_METER : string;
  TEMP_CELSIUS : string;
  PERCENTAGE : string;
  PRESSURE_HPA : string;
  (** pydantic's validators of scalar fields, on a value that is not [None] *)
  str_validator : json → validation string;
  float_validator : json → validation float;
  parse_datetime : json → validation datetime;
  (** pydantic's last resort for a sub-model entry that is not a dict,
      [dict(value)]; rejected when that fails or gives a key that is not a
      string *)
  dict_of_value : json → validation (list (string * json))
}.

(** ** Unit normalisation *)

(** [key in d.keys()] and [d[key]] on a Python dict. *)
Definition dict_contains (d : gmap string string) (key : string) : bool :=
  bool_decide (key ∈ dom d).

Definition dict_getitem (d : gmap string string) (key : string) : result string :=
  match d !! key with
  | Some v => Ok v
  | None => Raise KeyError
  end.

Definition _units_translation `{HostLib} : gmap string string :=
  <["hPa" := PRESSURE_HPA]>
    (<["%" := PERCENTAGE]>
      (<["Celcius" := TEMP_CELSIUS]>
        (<["mg/m3" := CONCENTRATION_MILLIGRAMS_PER_CUBIC_METER]> ∅))).

Definition hass_unit `{HostLib} (self : Pollutant) : result string :=
  if dict_contains _units_translation (unit self)
  then dict_getitem _units_translation (unit self)
  else Ok (unit self).

(** ** Validation of a feed record (pydantic models) *)

(** A model validates its fields one after the other, in the order of their
    declaration, and goes on after a field that is rejected: the errors are
    collected and raised together as one [ValidationError] at the end. An
    exception that escapes from a validator ends the validation at once.
    [vf ⊛ va] is the validation of what comes first, [vf], followed by
    that of [va]. *)
Definition validation_ap {A B : Type} (vf : validation (A → B))
    (va : validation A) : validation B :=
  match vf with
  | Escapes e => Escapes e
  | Valid f =>
      match va with
      | Valid a => Valid (f a)
      | Invalid => Invalid
      | Escapes e => Escapes e
      end
  | Invalid =>
      match va with
      | Escapes e => Escapes e
      | _ => Invalid
      end
  end.

Notation "vf ⊛ va" := (validation_ap vf va) (at level 50, left associativity).

(** A validator that cannot let anything escape. *)
Definition accept {A : Type} (o : option A) : validation A :=
  match o with
  | Some a => Valid a
  | None => Invalid
  end.

(** A field declared with a plain type: it must be present and not [None]. *)
Definition required {A : Type} (validator : json → validation A)
    (field : option json) : validation A :=
  match field with
  | None => Invalid
  | Some JNull => Invalid
  | Some v => validator v
  end.

(** A field declared [Optional[...]]: a missing or [None] value is [None]. *)
Definition optional {A : Type} (validator : json → validation A)
    (field : option json) : validation (option A) :=
  match field with
  | None => Valid None
  | Some JNull => Valid None
  | Some v => Valid Some ⊛ validator v
  end.

(** The constructor of a model is [__init__(__pydantic_self__, **data)]:
    called as [cls( **fields )] on a dict that has that very key, it is not
    entered at all, the call raises [TypeError]. *)
Definition BaseModel_self : string := "__pydantic_self__".

Definition PollutantType_members : list PollutantType :=
  [PM2_5; PM10; TEMPERATURE; HUMIDITY; PRESSURE; AQI].

(** [PollutantType(v)]: the member whose value equals [v]. *)
Definition PollutantType_validator (v : json) : option PollutantType :=
  match v with
  | JStr s =>
      List.find (λ k, bool_decide (PollutantType_value k = s)) PollutantType_members
  | _ => None
  end.

(** The constructor [Pollutant], on the keyword arguments it was entered
    with. *)
Definition Pollutant_init `{HostLib} (fields : list (string * json))
    : validation Pollutant :=
  Valid mkPollutant
    ⊛ required (λ v, accept (PollutantType_validator v)) (dict_get "pol" fields)
    ⊛ required str_validator (dict_get "unit" fields)
    ⊛ optional parse_datetime (dict_get "time" fields)
    ⊛ optional float_validator (dict_get "value" fields)
    ⊛ required str_validator (dict_get "averaging" fields).

(** [Pollutant( **fields )] inside a validator: the [TypeError] of a call
    that is refused is one more error of the field. *)
Definition Pollutant_call `{HostLib} (fields : list (string * json))
    : validation Pollutant :=
  match dict_get BaseModel_self fields with
  | Some _ => Invalid
  | None => Pollutant_init fields
  end.

(** [Pollutant.validate(entry)], applied to each entry of [pollutants]. *)
Definition Pollutant_validate `{HostLib} (entry : json) : validation Pollutant :=
  match entry with
  | JObj fields => Pollutant_call fields
  | _ =>
      match dict_of_value entry with
      | Valid fields => Pollutant_call fields
      | Invalid => Invalid
      | Escapes e => Escapes e
      end
  end.

(** The entries of a list field, validated one after the other. *)
Definition validate_each {A : Type} (validator : json → validation A)
    (items : list json) : validation (list A) :=
  foldr (λ item rest, Valid cons ⊛ validator item ⊛ rest) (Valid []) items.

(** A field declared [List[Pollutant]]. *)
Definition Pollutant_list_validator `{HostLib} (v : json)
    : validation (list Pollutant) :=
  match v with
  | JArr items => validate_each Pollutant_validate items
  | _ => Invalid
  end.

Record Station : Type := mkStation {
  id : string;
  cityName : string;
  stationName : string;
  localName : string;
  timezone : string;
  latitude : float;
  longitude : float;
  pollutants : list Pollutant
}.

(** [Station( **fields )], the constructor called on the entries of a feed
    record: [TypeError] when the call is refused; else a [Station]; or
    [ValidationError] when a field (or a pollutant entry) is rejected and
    nothing escapes; or the exception that escapes from a validator. *)
Definition Station_init `{HostLib} (fields : list (string * json)) : result Station :=
  match dict_get BaseModel_self fields with
  | Some _ => Raise TypeError
  | None =>
      match
        Valid mkStation
          ⊛ required str_validator (dict_get "id" fields)
          ⊛ required str_validator (dict_get "cityName" fields)
          ⊛ required str_validator (dict_get "stationName" fields)
          ⊛ required str_validator (dict_get "localName" fields)
          ⊛ required str_validator (dict_get "timezone" fields)
          ⊛ required float_validator (dict_get "latitude" fields)
          ⊛ required float_validator (dict_get "longitude" fields)
          ⊛ required Pollutant_list_validator (dict_get "pollutants" fields)
      with
      | Valid st => Ok st
      | Invalid => Raise ValidationError
      | Escapes e => Raise e
      end
  end.

(** ** Sensor records *)

(** A value of the attribute dict of a sensor. *)
Inductive attr : Type :=
  | AttrStr (s : string)
  | AttrFloat (x : float).

Record SaveEcoBotSensorModel : Type := mkSensorModel {
  name : string;
  unique_id : string;
  station_id : string;
  sensor_type : PollutantType;
  state : float;
  device_state_attributes : list (string * attr);
  deprecated : bool
}.

(** The constructor [SaveEcoBotSensorModel]. Every argument [sensors] passes
    already has the declared type, except [state]: the field is declared
    [float], the argument is an [Optional[float]], and pydantic rejects
    [None] for a field that is not optional. *)
Definition SaveEcoBotSensorModel_init (name unique_id station_id : string)
    (sensor_type : PollutantType) (state : option float)
    (device_state_attributes : list (string * attr)) (deprecated : bool)
    : result SaveEcoBotSensorModel :=
  match state with
  | Some x =>
      Ok {| name := name; unique_id := unique_id; station_id := station_id;
            sensor_type := sensor_type; state := x;
            device_state_attributes := device_state_attributes;
            deprecated := deprecated |}
  | None => Raise ValidationError
  end.

(** [datetime.datetime.strftime(t, fmt)], called unbound on a value that may
    be [None]. *)
Definition datetime_strftime `{HostLib} (t : option datetime) : result string :=
  match t with
  | Some d => Ok (strftime (wall d))
  | None => Raise TypeError
  end.

(** [datetime.datetime.now() - t] *)
Definition age_at (now : Z) (t : option datetime) : result timedelta :=
  match t with
  | Some d => datetime_sub (naive now) d
  | None => Raise TypeError
  end.

Definition slug `{HostLib} (self : Station) : string :=
  str_lower (id self +:+ "_" +:+ cityName self).

Definition common_attrs (self : Station) : list (string * attr) :=
  [ ("city", AttrStr (cityName self));
    ("address", AttrStr (stationName self));
    ("local_name", AttrStr (localName self));
    ("timezone", AttrStr (timezone self));
    ("latitude", AttrFloat (latitude self));
    ("longitude", AttrFloat (longitude self)) ].

(** One turn of the loop of [sensors], for the pollutant [p], [now] being
    what [datetime.datetime.now()] returns in that turn. *)
Definition sensor_of `{HostLib} (self : Station) (now : Z) (p : Pollutant)
    : result SaveEcoBotSensorModel :=
  updated ← datetime_strftime (time p);
  u ← hass_unit p;
  let attrs :=
    [ ("updated_at", AttrStr updated);
      ("unit_of_measurement", AttrStr u);
      ("averaging", AttrStr (averaging p)) ] ++ common_attrs self in
  age ← age_at now (time p);
  SaveEcoBotSensorModel_init
    (PollutantType_name (pol p) +:+ " (" +:+ cityName self +:+ ", "
       +:+ stationName self +:+ ")")
    (slug self +:+ "_" +:+ str_lower (PollutantType_name (pol p)))
    (id self)
    (pol p)
    (value p)
    attrs
    (bool_decide (age > timedelta_hours SENSOR_DEPRECATION_HOURS)).

(** The loop of [sensors]: [clock n] is the [n]-th reading of the clock
    during the call, [i] the number of readings made so far, and
    [station_sensors] the list built so far. *)
Fixpoint sensors_loop `{HostLib} (self : Station) (clock : nat → Z) (i : nat)
    (ps : list Pollutant) (station_sensors : list SaveEcoBotSensorModel)
    : result (list SaveEcoBotSensorModel) :=
  match ps with
  | [] => Ok station_sensors
  | p :: rest =>
      station_sensor ← sensor_of self (clock i) p;
      sensors_loop self clock (S i) rest (station_sensors ++ [station_sensor])
  end.

Definition sensors `{HostLib} (self : Station) (clock : nat → Z)
    : result (list SaveEcoBotSensorModel) :=
  sensors_loop self clock 0%nat (pollutants self) [].

(** ** The station registry *)

(** [updated_at] only ever holds a value of [datetime.datetime.now()], a
    naive datetime: it is kept as its wall-clock reading. *)
Record StationsClient : Type := mkClient {
  stations : list Station;
  updated_at : Z
}.

(** [StationsClient()], [now] being the clock at construction. *)
Definition StationsClient_init (now : Z) : StationsClient :=
  {| stations := []; updated_at := now |}.

Inductive level : Type := DEBUG | INFO | ERROR.

#[global] Instance level_eq_dec : EqDecision level.
Proof. solve_decision. Defined.

(** What a call does to the outside world, in program order. *)
Inductive event : Type :=
  | ApiCall
  | Log (lvl : level).

#[global] Instance event_eq_dec : EqDecision event.
Proof. solve_decision. Defined.

Definition api_calls (trace : list event) : nat :=
  length (filter (λ e, e = ApiCall) trace).

(** What the GET request meets: a response with its status, [body] being the
    outcome of [resp.json()]; or a failure of the transport. *)
Inductive http : Type :=
  | Response (status : Z) (body : result json)
  | Failed (e : exn).

(** The elements a [for] loop draws from a decoded value. The characters of
    a string are given as its bytes; all that matters of them below is that
    they are strings. *)
Definition py_iter (v : json) : result (list json) :=
  match v with
  | JArr items => Ok items
  | JObj fields => Ok ((λ kv, JStr (fst kv)) <$> fields)
  | JStr s => Ok ((λ c, JStr (String c EmptyString)) <$> String.list_ascii_of_string s)
  | _ => Raise TypeError
  end.

(** The loop of [update] over the decoded records; [acc] is [self.stations]
    as mutated so far. An entry that is not a dict cannot be splatted into
    the constructor: a [TypeError] that nothing catches. *)
Fixpoint update_loop `{HostLib} (stations_resp : list json) (acc : list Station)
    (trace : list event) : result () * list Station * list event :=
  match stations_resp with
  | [] => (Ok (), acc, trace)
  | station :: rest =>
      match station with
      | JObj fields =>
          match Station_init fields with
          | Ok st => update_loop rest (acc ++ [st]) trace
          | Raise ValidationError => update_loop rest acc (trace ++ [Log ERROR])
          | Raise e => (Raise e, acc, trace)
          end
      | _ => (Raise TypeError, acc, trace)
      end
  end.

(** [update(force)]. [now_start] is the clock when the call starts, [net]
    what the request meets if it is made, [now_end] the clock after the
    records are processed. The outcome is the value returned (or the
    exception raised), the registry as the call leaves it, and the trace. *)
Definition update `{HostLib} (self : StationsClient) (force : bool)
    (now_start : Z) (net : http) (now_end : Z)
    : result bool * StationsClient * list event :=
  if bool_decide (now_start - updated_at self < timedelta_seconds 30) && negb force
  then (Ok true, self, [Log DEBUG])
  else
    let trace := [Log INFO; ApiCall] in
    match net with
    | Failed e => (Raise e, self, trace)
    | Response status body =>
        if bool_decide (status ≠ 200)
        then (Ok false, self, trace ++ [Log ERROR])
        else
          match body with
          | Raise e => (Raise e, self, trace)
          | Ok stations_resp =>
              let emptied := {| stations := []; updated_at := updated_at self |} in
              match py_iter stations_resp with
              | Raise e => (Raise e, emptied, trace)
              | Ok records =>
                  match update_loop records [] trace with
                  | (Ok _, sts, trace') =>
                      (Ok true, {| stations := sts; updated_at := now_end |},
                       trace' ++ [Log DEBUG])
                  | (Raise e, sts, trace') =>
                      (Raise e, {| stations := sts; updated_at := updated_at self |}, trace')
                  end
              end
          end
    end.

(** One stage of [filter_stations]: [if criterion: fs = filter(..., fs)].
    A criterion that is [None] (not configured) or empty is falsy. *)
Definition filter_stage (criterion : option (list string))
    (field : Station → string) (fs : list Station) : list Station :=
  match criterion with
  | Some (x :: l) => filter (λ s, field s ∈ x :: l) fs
  | _ => fs
  end.

(** [filter_stations]: the stations the returned iterator yields. *)
Definition filter_stations (self : StationsClient)
    (station_ids city_names station_names : option (list string)) : list Station :=
  let fs := stations self in
  let fs := filter_stage station_ids id fs in
  let fs := filter_stage city_names cityName fs in
  let fs := filter_stage station_names stationName fs in
  fs.

(** [sorted(set(...))] *)
Definition cities (self : StationsClient) : list string :=
  let available_cities : gset string := list_to_set (cityName <$> stations self) in
  merge_sort String.le (elements available_cities).

Definition city_stations (self : StationsClient) (city : string)
    : list (string * string) :=
  if bool_decide (city ∉ cities self) then []
  else
    let city_stations := filter_stations self (Some []) (Some [city]) (Some []) in
    (λ c, (id c, stationName c)) <$> city_stations.

(** [l.pop()]: the last element, [IndexError] on an empty list. *)
Definition list_pop {A : Type} (l : list A) : result A :=
  match last l with
  | Some x => Ok x
  | None => Raise IndexError
  end.

(** [get_sensor]; [None] of Python is the [None] of the option. *)
Definition get_sensor `{HostLib} (self : StationsClient) (station_id : string)
    (kind : PollutantType) (clock : nat → Z)
    : result (option SaveEcoBotSensorModel) :=
  station ← list_pop (filter_stations self (Some [station_id]) (Some []) (Some []));
  station_sensors ← sensors station clock;
  let sensor := filter (λ p, sensor_type p = kind) station_sensors in
  match sensor with
  | [] => Ok None
  | _ => found ← list_pop sensor; Ok (Some found)
  end.

(** ** The platform: sensor entities and set-up *)

(** What can be raised at the level of the platform: an exception of the
    core, the [AttributeError] of an attribute read on [None], and the
    [PlatformNotReady] that the set-up raises from a connection error. *)
Inductive platform_exn : Type :=
  | Core (e : exn)
  | AttributeError
  | PlatformNotReady (cause : exn).

Inductive outcome (A : Type) : Type :=
  | Done (a : A)
  | Fail (e : platform_exn).

Arguments Done {A} a.
Arguments Fail {A} e.

(** A sensor entity. Its [_client] is the one registry all the entities
    share: the methods below take it as an argument and return it as the
    call leaves it. [_model] is [None] once a lookup has found nothing. *)
Record SaveEcoBotSensor : Type := mkSensor {
  _model : option SaveEcoBotSensorModel;
  _name : string
}.

(** [SaveEcoBotSensor(client, sensor_model)] *)
Definition SaveEcoBotSensor_init (sensor_model : SaveEcoBotSensorModel)
    : SaveEcoBotSensor :=
  {| _model := Some sensor_model; _name := name sensor_model |}.

Definition SaveEcoBotSensor_name (self : SaveEcoBotSensor) : string :=
  _name self.

(** What the [state] property returns: a string or a number. *)
Inductive state_value : Type :=
  | StateStr (s : string)
  | StateFloat (x : float).

(** The [state] property. A model object is truthy, [None] is not; reading
    [deprecated] on [None] raises. *)
Definition SaveEcoBotSensor_state (self : SaveEcoBotSensor) : outcome state_value :=
  match _model self with
  | None => Fail AttributeError
  | Some m =>
      if deprecated m then Done (StateStr "deprecated")
      else
        Done (match _model self with
              | Some m' => StateFloat (state m')
              | None => StateStr "unknown"
              end)
  end.

(** [d[key]] on the attribute dict. *)
Fixpoint attrs_getitem (key : string) (d : list (string * attr)) : result attr :=
  match d with
  | [] => Raise KeyError
  | (k, v) :: rest => if decide (k = key) then Ok v else attrs_getitem key rest
  end.

(** The [unit_of_measurement] property. *)
Definition SaveEcoBotSensor_unit_of_measurement (self : SaveEcoBotSensor)
    : outcome attr :=
  match _model self with
  | None => Fail AttributeError
  | Some m =>
      match attrs_getitem "unit_of_measurement" (device_state_attributes m) with
      | Ok v => Done v
      | Raise e => Fail (Core e)
      end
  end.

(** The [device_state_attributes] property. *)
Definition SaveEcoBotSensor_device_state_attributes (self : SaveEcoBotSensor)
    : outcome (list (string * attr)) :=
  match _model self with
  | None => Fail AttributeError
  | Some m => Done (device_state_attributes m)
  end.

(** [async_update]: refresh the shared registry (the value [update] returns
    is not looked at), then look the sensor up again. The arguments after
    [client] are those of [update] and the clock of [get_sensor]. The outcome
    comes with the entity and the registry as the call leaves them, and the
    trace. *)
Definition SaveEcoBotSensor_async_update `{HostLib} (self : SaveEcoBotSensor)
    (client : StationsClient) (now_start : Z) (net : http) (now_end : Z)
    (clock : nat → Z)
    : outcome () * SaveEcoBotSensor * StationsClient * list event :=
  match update client false now_start net now_end with
  | (Raise e, client', trace) => (Fail (Core e), self, client', trace)
  | (Ok _, client', trace) =>
      match _model self with
      | None => (Fail AttributeError, self, client', trace)
      | Some m =>
          match get_sensor client' (station_id m) (sensor_type m) clock with
          | Raise e => (Fail (Core e), self, client', trace)
          | Ok None =>
              (Done (), {| _model := None; _name := _name self |}, client',
               trace ++ [Log ERROR])
          | Ok (Some m') =>
              (Done (), {| _model := Some m'; _name := _name self |}, client',
               trace ++ [Log DEBUG])
          end
      end
  end.

(** The loop of the set-up over the selected stations: [clock] is the clock
    of the whole loop, [i] the number of readings made so far (a call of
    [sensors] that returns reads the clock once per record), and [acc] the
    entities built so far. *)
Fixpoint setup_loop `{HostLib} (selected : list Station) (clock : nat → Z)
    (i : nat) (acc : list SaveEcoBotSensor) : result (list SaveEcoBotSensor) :=
  match selected with
  | [] => Ok acc
  | station :: rest =>
      rs ← sensors station (λ n, clock (i + n)%nat);
      setup_loop rest clock (i + length rs)%nat (acc ++ (SaveEcoBotSensor_init <$> rs))
  end.

(** [async_setup_platform]. The three criteria are what [config.get] gives
    for the three options; [construction] is the clock when the registry is
    constructed, the next three arguments are those of [update], [clock] is
    the clock of the loop over the stations. The outcome is the list handed
    to [async_add_entities], with the registry and the trace. *)
Definition async_setup_platform `{HostLib}
    (station_ids city_names station_names : option (list string))
    (construction now_start : Z) (net : http) (now_end : Z) (clock : nat → Z)
    : outcome (list SaveEcoBotSensor) * StationsClient * list event :=
  let _client := StationsClient_init construction in
  match update _client true now_start net now_end with
  | (Raise ClientConnectorError, client', trace) =>
      (Fail (PlatformNotReady ClientConnectorError), client', trace ++ [Log ERROR])
  | (Raise TimeoutError, client', trace) =>
      (Fail (PlatformNotReady TimeoutError), client', trace ++ [Log ERROR])
  | (Raise e, client', trace) => (Fail (Core e), client', trace)
  | (Ok _, client', trace) =>
      let selected := filter_stations client' station_ids city_names station_names in
      match setup_loop selected clock 0%nat [] with
      | Raise e => (Fail (Core e), client', trace)
      | Ok entities => (Done entities, client', trace ++ [Log DEBUG])
      end
  end.

(** ** The behaviour the specification describes *)

(** The feed records that validate as stations, in feed order. *)
Definition valid_stations `{HostLib} (records : list (list (string * json)))
    : list Station :=
  omap (λ fields, match Station_init fields with
                  | Ok st => Some st
                  | Raise _ => None
                  end) records.

(** A criterion constrains a field only when it is given and not empty. *)
Definition satisfies (criterion : option (list string)) (x : string) : Prop :=
  match criterion with
  | Some (y :: l) => x ∈ y :: l
  | _ => True
  end.

#[global] Instance satisfies_dec criterion x : Decision (satisfies criterion x).
Proof. destruct criterion as [[|y l]|]; simpl; apply _. Defined.

(** A response status of the 2xx class. *)
Definition is_2xx (status : Z) : Prop := 200 ≤ status < 300.

(** A pollutant from which a sensor record can be derived: it has a value
    and a timestamp, and the timestamp is naive. *)
Definition derivable (p : Pollutant) : Prop :=
  ∃ t v, time p = Some t ∧ tzinfo t = None ∧ value p = Some v.

(** What the loop of [sensors] raises on a pollutant that is not derivable:
    [TypeError] for a timestamp that is missing or aware, [ValidationError]
    for a missing value. *)
Definition underivable_error (p : Pollutant) : exn :=
  match time p with
  | Some t => match tzinfo t with
              | None => ValidationError
              | Some _ => TypeError
              end
  | None => TypeError
  end.

(** The keys of a feed record that the station model declares. *)
Definition Station_fields : list string :=
  ["id"; "cityName"; "stationName"; "localName"; "timezone"; "latitude";
   "longitude"; "pollutants"].

(** A feed record whose construction as a station returns, or raises
    [ValidationError]: no other exception escapes from it. *)
Definition no_stray_exception `{HostLib} (fields : list (string * json)) : Prop :=
  ∀ e, Station_init fields = Raise e → e = ValidationError.

(** Whether a call of [update] is served from the cache. *)
Definition served_from_cache (self : StationsClient) (force : bool)
    (now_start : Z) : bool :=
  bool_decide (now_start - updated_at self < timedelta_seconds 30) && negb force.

(** ** A host to run the model on

    An instance of [HostLib] for evaluating the model on concrete inputs:
    ASCII lower-casing, the Home Assistant unit strings, validators that
    accept the values already of the declared type (for a float, a number;
    for a datetime, a whole number of seconds since 1970, read as an aware
    UTC datetime), and a rendering of a datetime by its microsecond count. *)

(** [float(n)] on an integer: the nearest float, or [OverflowError] when the
    integer is too large for a float. *)
Definition float_of_int (n : Z) : validation float :=
  let x := SF2Prim (binary_normalize prec emax n 0 false) in
  if is_infinity x then Escapes OverflowError else Valid x.

Definition sample_float_validator (v : json) : validation float :=
  match v with
  | JFloat x => Valid x
  | JInt n => float_of_int n
  | JBool b => Valid (if b then 1%float else 0%float)
  | _ => Invalid
  end.

Definition ascii_lower (c : Ascii.ascii) : Ascii.ascii :=
  let n := Ascii.N_of_ascii c in
  if ((65 <=? n) && (n <=? 90))%N then Ascii.ascii_of_N (n + 32) else c.

Fixpoint ascii_str_lower (s : string) : string :=
  match s with
  | EmptyString => EmptyString
  | String c rest => String (ascii_lower c) (ascii_str_lower rest)
  end.

Definition sample_host : HostLib := {|
  str_lower := ascii_str_lower;
  strftime := λ us, pretty us +:+ "us";
  CONCENTRATION_MILLIGRAMS_PER_CUBIC_METER := "mg/m³";
  TEMP_CELSIUS := "°C";
  PERCENTAGE := "%";
  PRESSURE_HPA := "hPa";
  str_validator := λ v, match v with JStr s => Valid s | _ => Invalid end;
  float_validator := sample_float_validator;
  parse_datetime := λ v,
    match v with
    | JInt n => Valid {| wall := (n + 62135596800) * 1000000; tzinfo := Some 0 |}
    | _ => Invalid
    end;
  dict_of_value := λ v, match v with JArr [] => Valid [] | _ => Invalid end
|}.

(** Sample data: 2021-01-01 00:00:00 as a wall-clock reading, two pollutants
    read at that time, one without a value, one without a timestamp, and
    feed records. *)

Definition sample_time : Z := 63745056000000000.

Definition sample_pm25 : Pollutant :=
  {| pol := PM2_5; unit := "mg/m3"; time := Some (naive sample_time);
     value := Some 1.5%float; averaging := "1h" |}.

Definition sample_temperature : Pollutant :=
  {| pol := TEMPERATURE; unit := "Celcius"; time := Some (naive sample_time);
     value := Some 21%float; averaging := "1h" |}.

Definition sample_no_value : Pollutant :=
  {| pol := PM10; unit := "mg/m3"; time := Some (naive sample_time);
     value := None; averaging := "1h" |}.

Definition sample_no_time : Pollutant :=
  {| pol := AQI; unit := "aqi"; time := None;
     value := Some 40%float; averaging := "1h" |}.

Definition sample_station (ps : list Pollutant) : Station :=
  {| id := "SAVEDNIPRO_001"; cityName := "Kyiv"; stationName := "Main St, 1";
     localName := "Main"; timezone := "+0200";
     latitude := 50.5%float; longitude := 30.5%float; pollutants := ps |}.

Definition sample_station_in (city : string) : Station :=
  {| id := "SAVEDNIPRO_002"; cityName := city; stationName := "Park";
     localName := "Park"; timezone := "+0200";
     latitude := 48.5%float; longitude := 35%float; pollutants := [] |}.

(** A clock that reads 12 hours after [sample_time], then one microsecond
    later at every further reading. *)
Definition sample_clock (n : nat) : Z :=
  sample_time + timedelta_hours 12 + Z.of_nat n.

Definition sample_client : StationsClient :=
  {| stations := [sample_station [sample_pm25; sample_temperature]];
     updated_at := sample_time |}.

Definition sample_pollutant_entry : list (string * json) :=
  [ ("pol", JStr "PM2.5"); ("unit", JStr "mg/m3"); ("time", JNull);
    ("value", JFloat 0.5%float); ("averaging", JStr "1h") ].

Definition sample_record (station_id : string) : list (string * json) :=
  [ ("id", JStr station_id); ("cityName", JStr "Odesa");
    ("stationName", JStr "Port"); ("localName", JStr "Port");
    ("timezone", JStr "+0200"); ("latitude", JFloat 46.5%float);
    ("longitude", JFloat 30.75%float);
    ("pollutants", JArr [JObj sample_pollutant_entry]) ].

(** A record without coordinates: it does not validate. *)
Definition sample_bad_record : list (string * json) :=
  [ ("id", JStr "broken"); ("cityName", JStr "Odesa") ].

Definition sample_feed : list (list (string * json)) :=
  [ sample_record "A"; sample_bad_record; sample_record "B" ].

(** More sample data: a later reading of PM2.5, a registry in which the
    station id "SAVEDNIPRO_001" occurs twice, a registry with a pollutant
    that has no timestamp, models and entities, and a host that also reads
    the text "2021-01-01 00:00:00" as the naive datetime [sample_time]. *)

Definition sample_pm25_later : Pollutant :=
  {| pol := PM2_5; unit := "mg/m3"; time := Some (naive sample_time);
     value := Some 2.5%float; averaging := "1h" |}.

Definition sample_client_twice : StationsClient :=
  {| stations :=
       [ sample_station [sample_temperature];
         sample_station_in "Lviv";
         sample_station [sample_pm25; sample_temperature; sample_pm25_later] ];
     updated_at := sample_time |}.

Definition sample_client_no_time : StationsClient :=
  {| stations := [sample_station [sample_pm25; sample_no_time]];
     updated_at := sample_time |}.

Definition sample_model (station_id : string) (kind : PollutantType)
    : SaveEcoBotSensorModel :=
  {| name := "sample"; unique_id := "sample"; station_id := station_id;
     sensor_type := kind; state := 0%float; device_state_attributes := [];
     deprecated := false |}.

Definition sample_entity (station_id : string) (kind : PollutantType)
    : SaveEcoBotSensor :=
  SaveEcoBotSensor_init (sample_model station_id kind).

Definition text_host : HostLib := {|
  str_lower := ascii_str_lower;
  strftime := λ us, pretty us +:+ "us";
  CONCENTRATION_MILLIGRAMS_PER_CUBIC_METER := "mg/m³";
  TEMP_CELSIUS := "°C";
  PERCENTAGE := "%";
  PRESSURE_HPA := "hPa";
  str_validator := λ v, match v with JStr s => Valid s | _ => Invalid end;
  float_validator := sample_float_validator;
  parse_datetime := λ v,
    match v with
    | JStr "2021-01-01 00:00:00" => Valid (naive sample_time)
    | _ => Invalid
    end;
  dict_of_value := λ v, match v with JArr [] => Valid [] | _ => Invalid end
|}.

Definition sample_timed_record (station_id city : string) : list (string * json) :=
  [ ("id", JStr station_id); ("cityName", JStr city);
    ("stationName", JStr "Port"); ("localName", JStr "Port");
    ("timezone", JStr "+0200"); ("latitude", JFloat 46.5%float);
    ("longitude", JFloat 30.75%float);
    ("pollutants",
     JArr [ JObj [ ("pol", JStr "PM10"); ("unit", JStr "mg/m3");
                   ("time", JStr "2021-01-01 00:00:00");
                   ("value", JFloat 7%float); ("averaging", JStr "1h") ];
            JObj [ ("pol", JStr "Humidity"); ("unit", JStr "%");
                   ("time", JStr "2021-01-01 00:00:00");
                   ("value", JFloat 55%float); ("averaging", JStr "1h") ] ]) ].

Definition sample_timed_feed : list (list (string * json)) :=
  [ sample_timed_record "A" "Odesa"; sample_timed_record "B" "Kyiv";
    sample_timed_record "C" "Odesa" ].

(** A pollutant whose timestamp is aware (UTC), as validation makes it from
    a number of seconds since 1970, and a feed record with that pollutant:
    1609459200 is 2021-01-01 00:00:00 UTC. *)
Definition sample_aware : Pollutant :=
  {| pol := PM10; unit := "mg/m3";
     time := Some {| wall := sample_time; tzinfo := Some 0 |};
     value := Some 7%float; averaging := "1h" |}.

Definition sample_aware_record : list (string * json) :=
  [ ("id", JStr "SAVEDNIPRO_001"); ("cityName", JStr "Kyiv");
    ("stationName", JStr "Main St, 1"); ("localName", JStr "Main");
    ("timezone", JStr "+0200"); ("latitude", JFloat 50.5%float);
    ("longitude", JFloat 30.5%float);
    ("pollutants",
     JArr [ JObj [ ("pol", JStr "PM10"); ("unit", JStr "mg/m3");
                   ("time", JInt 1609459200);
                   ("value", JFloat 7%float); ("averaging", JStr "1h") ] ]) ].

(** A record whose latitude is an integer too large for a float. *)
Definition sample_overflow_record : list (string * json) :=
  [ ("id", JStr "far"); ("cityName", JStr "Odesa");
    ("stationName", JStr "Port"); ("localName", JStr "Port");
    ("timezone", JStr "+0200"); ("latitude", JInt (10 ^ 400));
    ("longitude", JFloat 30.75%float);
    ("pollutants", JArr []) ].

(** A record whose only pollutant is of a kind the enumeration does not
    have. *)
Definition sample_ozone_record : list (string * json) :=
  [ ("id", JStr "O3"); ("cityName", JStr "Odesa");
    ("stationName", JStr "Port"); ("localName", JStr "Port");
    ("timezone", JStr "+0200"); ("latitude", JFloat 46.5%float);
    ("longitude", JFloat 30.75%float);
    ("pollutants",
     JArr [ JObj [ ("pol", JStr "Ozone"); ("unit", JStr "mg/m3");
                   ("value", JFloat 7%float); ("averaging", JStr "1h") ] ]) ].

(** ** Properties *)

Section Properties.
Context `{host : HostLib}.

(** *** Unit normalisation *)

Lemma hass_unit_Ok (p : Pollutant) :
  hass_unit p = Ok (default (unit p) (_units_translation !! unit p)).
Proof.
  unfold hass_unit, dict_contains, dict_getitem.
  case_bool_decide as Hdom.
  - apply elem_of_dom in Hdom as [v Hv]. by rewrite Hv.
  - apply not_elem_of_dom in Hdom. by rewrite Hdom.
Qed.

(** C8. The display unit of a pollutant is the table's translation of its
    raw unit when the raw unit is a key of the table, and the raw unit itself
    otherwise; the table sends "mg/m3" to the concentration unit and has no
    entry for "unknown_unit", which therefore passes through unchanged. *)
Theorem hass_unit_translation (p : Pollutant) :
  hass_unit p = Ok (match _units_translation !! unit p with
                    | Some canonical => canonical
                    | None => unit p
                    end)
  ∧ _units_translation !! "mg/m3" = Some CONCENTRATION_MILLIGRAMS_PER_CUBIC_METER
  ∧ _units_translation !! "unknown_unit" = None
  ∧ hass_unit {| pol := pol p; unit := "unknown_unit"; time := time p;
                 value := value p; averaging := averaging p |}
    = Ok "unknown_unit"
  ∧ hass_unit {| pol := pol p; unit := "mg/m3"; time := time p;
                 value := value p; averaging := averaging p |}
    = Ok CONCENTRATION_MILLIGRAMS_PER_CUBIC_METER.
Proof.
  assert (Hmg : _units_translation !! "mg/m3"
                = Some CONCENTRATION_MILLIGRAMS_PER_CUBIC_METER).
  { unfold _units_translation.
    rewrite !lookup_insert_ne by done. apply lookup_insert_eq. }
  assert (Hunk : _units_translation !! "unknown_unit" = None).
  { unfold _units_translation.
    rewrite !lookup_insert_ne by done. apply lookup_empty. }
  split_and!; [| done | done | | ].
  - rewrite hass_unit_Ok. by destruct (_ !! _).
  - rewrite hass_unit_Ok. simpl. by rewrite Hunk.
  - rewrite hass_unit_Ok. simpl. by rewrite Hmg.
Qed.

(** *** Deriving sensor records *)

Lemma sensor_of_inv (self : Station) (now : Z) (p : Pollutant)
    (r : SaveEcoBotSensorModel) :
  sensor_of self now p = Ok r →
  ∃ t v, time p = Some t ∧ tzinfo t = None ∧ value p = Some v
    ∧ state r = v ∧ sensor_type r = pol p ∧ station_id r = id self
    ∧ deprecated r
      = bool_decide (now - wall t > timedelta_hours SENSOR_DEPRECATION_HOURS).
Proof.
  unfold sensor_of. rewrite hass_unit_Ok.
  destruct (time p) as [t|] eqn:Ht; simpl; [|done].
  unfold datetime_sub. simpl.
  destruct (tzinfo t) as [off|] eqn:Htz; simpl; [done|].
  destruct (value p) as [v|] eqn:Hv; simpl; [|done].
  intros [= <-]. by exists t, v.
Qed.

Lemma sensor_of_Ok (self : Station) (now : Z) (p : Pollutant)
    (t : datetime) (v : float) :
  time p = Some t → tzinfo t = None → value p = Some v →
  ∃ r, sensor_of self now p = Ok r.
Proof.
  intros Ht Htz Hv. unfold sensor_of. rewrite hass_unit_Ok, Ht, Hv. simpl.
  unfold datetime_sub. simpl. rewrite Htz. simpl. eauto.
Qed.

Lemma sensor_of_null_time (self : Station) (now : Z) (p : Pollutant) :
  time p = None → sensor_of self now p = Raise TypeError.
Proof. intros Ht. unfold sensor_of. by rewrite Ht. Qed.

Lemma sensor_of_null_value (self : Station) (now : Z) (p : Pollutant) :
  value p = None → ∃ e, sensor_of self now p = Raise e.
Proof.
  intros Hv. destruct (sensor_of self now p) as [r|e] eqn:Hr; [|by eauto].
  apply sensor_of_inv in Hr as (t & v & _ & _ & Hv' & _). congruence.
Qed.

Lemma sensors_loop_inv (self : Station) (clock : nat → Z) (ps : list Pollutant) :
  ∀ (i : nat) (acc rs : list SaveEcoBotSensorModel),
    sensors_loop self clock i ps acc = Ok rs →
    ∃ rs', rs = acc ++ rs' ∧ length rs' = length ps
      ∧ ∀ (j : nat) (p : Pollutant), ps !! j = Some p →
          ∃ r, rs' !! j = Some r ∧ sensor_of self (clock (i + j)%nat) p = Ok r.
Proof.
  induction ps as [|p ps IH]; intros i acc rs; simpl.
  - intros [= <-]. exists []. rewrite app_nil_r. by split_and!.
  - destruct (sensor_of self (clock i) p) as [r|e] eqn:Hr; simpl; [|done].
    intros (rs' & -> & Hlen & Hrs')%IH.
    exists (r :: rs'). rewrite <- app_assoc. split_and!; [done|by simpl; f_equal|].
    intros [|j] q; simpl.
    + intros [= <-]. exists r. by rewrite Nat.add_0_r.
    + intros Hq. replace (i + S j)%nat with (S i + j)%nat by lia. eauto.
Qed.

Lemma sensors_loop_total (self : Station) (clock : nat → Z) (ps : list Pollutant) :
  ∀ (i : nat) (acc : list SaveEcoBotSensorModel),
    (∀ (j : nat) (p : Pollutant), ps !! j = Some p →
       ∃ r, sensor_of self (clock (i + j)%nat) p = Ok r) →
    ∃ rs, sensors_loop self clock i ps acc = Ok rs.
Proof.
  induction ps as [|p ps IH]; intros i acc Hall; simpl; [by eauto|].
  destruct (Hall 0%nat p eq_refl) as [r Hr].
  rewrite Nat.add_0_r in Hr. rewrite Hr. simpl.
  apply IH. intros j q Hq.
  replace (S i + j)%nat with (i + S j)%nat by lia. by apply Hall.
Qed.

Lemma sensors_loop_raise (self : Station) (clock : nat → Z) (ps : list Pollutant)
    (p : Pollutant) :
  p ∈ ps → (∀ now, ∃ e, sensor_of self now p = Raise e) →
  ∀ (i : nat) (acc : list SaveEcoBotSensorModel),
    ∃ e, sensors_loop self clock i ps acc = Raise e.
Proof.
  intros Hin Hp i acc.
  destruct (sensors_loop self clock i ps acc) as [rs|e] eqn:Hrs; [|by eauto].
  apply sensors_loop_inv in Hrs as (rs' & _ & _ & Hrs').
  apply list_elem_of_lookup in Hin as [j Hj].
  destruct (Hrs' j p Hj) as (r & _ & Hr).
  destruct (Hp (clock (i + j)%nat)) as [e He]. congruence.
Qed.

(** C2, as amended. For every station whose pollutants all carry a value and
    a naive timestamp, [sensors] returns one record per pollutant, in the
    order of the station's pollutants, the state of each record being the
    value of its pollutant (and its kind and station id those of the
    pollutant and the station). *)
Theorem sensors_one_record_per_pollutant (self : Station) (clock : nat → Z) :
  (∀ p, p ∈ pollutants self →
     ∃ t v, time p = Some t ∧ tzinfo t = None ∧ value p = Some v) →
  ∃ rs, sensors self clock = Ok rs
    ∧ length rs = length (pollutants self)
    ∧ Forall2 (λ p r, value p = Some (state r) ∧ sensor_type r = pol p
                      ∧ station_id r = id self)
        (pollutants self) rs.
Proof.
  intros Hall. unfold sensors.
  destruct (sensors_loop_total self clock (pollutants self) 0%nat []) as [rs Hrs].
  { intros j p Hj.
    destruct (Hall p) as (t & v & Ht & Htz & Hv); [by eapply list_elem_of_lookup_2|].
    by eapply sensor_of_Ok. }
  exists rs. split; [done|].
  apply sensors_loop_inv in Hrs as (rs' & -> & Hlen & Hrs'). simpl.
  split; [done|].
  apply Forall2_same_length_lookup. split; [done|].
  intros j p r Hp Hr. destruct (Hrs' j p Hp) as (r' & Hr' & Hs).
  assert (r' = r) as -> by congruence.
  apply sensor_of_inv in Hs as (t & v & _ & _ & Hv & Hst & Hty & Hid & _).
  by rewrite Hv, Hst.
Qed.

(** C6, as amended. For a station whose pollutants all carry a value and a
    naive timestamp, [sensors] returns one record per pollutant, and the
    record derived from a pollutant is deprecated exactly when the clock read
    for that pollutant, minus the timestamp of the pollutant, is strictly
    more than 12 hours; at an age of exactly 12 hours it is not deprecated. *)
Theorem deprecated_iff_older_than_12_hours (self : Station) (clock : nat → Z) :
  (∀ p, p ∈ pollutants self → derivable p) →
  ∃ rs, sensors self clock = Ok rs
    ∧ length rs = length (pollutants self)
    ∧ ∀ i p t, pollutants self !! i = Some p → time p = Some t →
        ∃ r, rs !! i = Some r
          ∧ (deprecated r = true ↔ clock i - wall t > timedelta_hours 12)
          ∧ (clock i - wall t = timedelta_hours 12 → deprecated r = false).
Proof.
  intros Hall. unfold sensors.
  destruct (sensors_loop_total self clock (pollutants self) 0%nat []) as [rs Hrs].
  { intros j p Hj.
    destruct (Hall p) as (t & v & Ht & Htz & Hv); [by eapply list_elem_of_lookup_2|].
    by eapply sensor_of_Ok. }
  exists rs. split; [done|].
  apply sensors_loop_inv in Hrs as (rs' & -> & Hlen & Hrs'). simpl.
  split; [done|].
  intros i p t Hp Ht. destruct (Hrs' i p Hp) as (r & Hr & Hs).
  exists r. split; [done|].
  apply sensor_of_inv in Hs as (t' & v & Ht' & _ & _ & _ & _ & _ & Hdep).
  assert (t' = t) as -> by congruence. simpl in Hdep.
  unfold SENSOR_DEPRECATION_HOURS in Hdep. rewrite Hdep. split.
  - rewrite bool_decide_eq_true. done.
  - intros Heq. apply bool_decide_eq_false. lia.
Qed.

Lemma Pollutant_init_null_time (fields : list (string * json)) :
  dict_get "time" fields = None ∨ dict_get "time" fields = Some JNull →
  Pollutant_init fields =
    Valid (λ k u v a,
             {| pol := k; unit := u; time := None; value := v; averaging := a |})
      ⊛ required (λ v, accept (PollutantType_validator v)) (dict_get "pol" fields)
      ⊛ required str_validator (dict_get "unit" fields)
      ⊛ optional float_validator (dict_get "value" fields)
      ⊛ required str_validator (dict_get "averaging" fields).
Proof.
  unfold Pollutant_init.
  intros [-> | ->]; simpl;
    by destruct (required _ (dict_get "pol" fields)),
         (required _ (dict_get "unit" fields)),
         (optional _ (dict_get "value" fields)),
         (required _ (dict_get "averaging" fields)).
Qed.

(** C9. Validation accepts a pollutant entry whose "time" is null or missing
    and gives it the timestamp [None]: the entry validates exactly as its
    other fields do. For a station holding a pollutant whose timestamp is
    [None], formatting that timestamp raises [TypeError], and [sensors]
    raises instead of returning records. *)
Theorem null_timestamp_accepted_then_sensors_raises :
  (∀ fields : list (string * json),
     dict_get "time" fields = None ∨ dict_get "time" fields = Some JNull →
     Pollutant_init fields =
       Valid (λ k u v a,
                {| pol := k; unit := u; time := None; value := v;
                   averaging := a |})
         ⊛ required (λ v, accept (PollutantType_validator v))
             (dict_get "pol" fields)
         ⊛ required str_validator (dict_get "unit" fields)
         ⊛ optional float_validator (dict_get "value" fields)
         ⊛ required str_validator (dict_get "averaging" fields))
  ∧ (∀ (self : Station) (clock : nat → Z) (p : Pollutant),
       p ∈ pollutants self → time p = None →
       datetime_strftime (time p) = Raise TypeError
       ∧ (∀ now, sensor_of self now p = Raise TypeError)
       ∧ ∃ e, sensors self clock = Raise e).
Proof.
  split; [apply Pollutant_init_null_time|].
  intros self clock p Hin Ht. split_and!.
  - by rewrite Ht.
  - intros now. by apply sensor_of_null_time.
  - apply sensors_loop_raise with p; [done|].
    intros now. exists TypeError. by apply sensor_of_null_time.
Qed.

(** *** Refreshing the registry *)

Lemma api_calls_app (t1 t2 : list event) :
  api_calls (t1 ++ t2) = (api_calls t1 + api_calls t2)%nat.
Proof. unfold api_calls. by rewrite filter_app, length_app. Qed.

Lemma api_calls_errors (t : list event) :
  Forall (λ e, e = Log ERROR) t → api_calls t = 0%nat.
Proof.
  unfold api_calls. induction 1 as [|e t -> _ IH]; [done|].
  by rewrite filter_cons_False.
Qed.

Lemma Station_init_cases (fields : list (string * json)) :
  no_stray_exception fields →
  (∃ st, Station_init fields = Ok st) ∨ Station_init fields = Raise ValidationError.
Proof.
  intros Hquiet. destruct (Station_init fields) as [st|e] eqn:Hst; [by eauto|].
  right. by rewrite (Hquiet e).
Qed.

(** The loop keeps the records that validate, in order, and goes on after a
    record that raises [ValidationError]. *)
Lemma update_loop_records (records : list (list (string * json))) :
  Forall no_stray_exception records →
  ∀ (acc : list Station) (trace : list event),
    ∃ errors, Forall (λ e, e = Log ERROR) errors
      ∧ update_loop (JObj <$> records) acc trace
        = (Ok (), acc ++ valid_stations records, trace ++ errors).
Proof.
  induction 1 as [|fields records Hquiet _ IH]; intros acc trace; csimpl.
  - exists []. by rewrite !app_nil_r.
  - unfold valid_stations. csimpl. fold (valid_stations records).
    destruct (Station_init_cases fields Hquiet) as [[st ->] | ->].
    + destruct (IH (acc ++ [st]) trace) as (errors & Herr & ->).
      exists errors. split; [done|]. by rewrite <- app_assoc.
    + destruct (IH acc (trace ++ [Log ERROR])) as (errors & Herr & ->).
      exists (Log ERROR :: errors). split; [by constructor|].
      by rewrite <- app_assoc.
Qed.

Lemma update_makes_request (self : StationsClient) (force : bool) (now_start : Z) :
  force = true ∨ timedelta_seconds 30 ≤ now_start - updated_at self →
  bool_decide (now_start - updated_at self < timedelta_seconds 30) && negb force
    = false.
Proof.
  intros [-> | Hold]; [by rewrite andb_false_r|].
  by rewrite bool_decide_eq_false_2 by lia.
Qed.

(** C3. When [update] makes its request ([force] set, or the data at least
    30 seconds old) and the response has a status outside the 2xx class, it
    returns [False] and leaves the registry, stations and [updated_at], as
    it was. *)
Theorem update_non_2xx_keeps_registry (self : StationsClient) (force : bool)
    (now_start : Z) (status : Z) (body : result json) (now_end : Z) :
  force = true ∨ timedelta_seconds 30 ≤ now_start - updated_at self →
  ¬ is_2xx status →
  ∃ trace,
    update self force now_start (Response status body) now_end
      = (Ok false, self, trace)
    ∧ api_calls trace = 1%nat.
Proof.
  intros Hreq Hstatus. unfold update. rewrite update_makes_request by done.
  rewrite bool_decide_eq_true_2; [by eauto|].
  intros ->. apply Hstatus. unfold is_2xx. lia.
Qed.

Lemma update_200_records (self : StationsClient) (force : bool)
    (now_start : Z) (records : list (list (string * json))) (now_end : Z) :
  force = true ∨ timedelta_seconds 30 ≤ now_start - updated_at self →
  Forall no_stray_exception records →
  ∃ trace,
    update self force now_start (Response 200 (Ok (JArr (JObj <$> records)))) now_end
      = (Ok true,
         {| stations := valid_stations records; updated_at := now_end |},
         trace)
    ∧ api_calls trace = 1%nat.
Proof.
  intros Hreq Hquiet. unfold update. rewrite update_makes_request by done.
  rewrite bool_decide_eq_false_2 by (intros Hne; by apply Hne). simpl.
  destruct (update_loop_records records Hquiet [] [Log INFO; ApiCall])
    as (errors & Herr & ->). simpl.
  eexists. split; [done|].
  change (api_calls ([Log INFO; ApiCall] ++ errors ++ [Log DEBUG]) = 1%nat).
  by rewrite !api_calls_app, (api_calls_errors errors) by done.
Qed.

(** A call that returns [True] after a request has set [updated_at] to the
    clock after processing. *)
Lemma update_fetched (self : StationsClient) (force : bool) (now_start : Z)
    (net : http) (now_end : Z) (after : StationsClient) (trace : list event) :
  update self force now_start net now_end = (Ok true, after, trace) →
  api_calls trace = 1%nat →
  updated_at after = now_end.
Proof.
  unfold update. cbv zeta.
  destruct (bool_decide _ && negb force); [by intros [= <- <-]|].
  destruct net as [status body|e]; [|done].
  destruct (decide (status = 200)) as [->|Hs];
    [|by rewrite bool_decide_eq_true_2 by done].
  rewrite bool_decide_eq_false_2 by (intros Hne; by apply Hne).
  destruct body as [body|e]; [|done].
  destruct (py_iter body) as [items|e]; [|done].
  destruct (update_loop items [] [Log INFO; ApiCall]) as [[[[]|e] sts] trace'];
    [|done].
  by intros [= <- <-].
Qed.

(** C4, as amended. When [update] makes its request and the response has
    status 200 and a body that decodes to a sequence of records, none of
    which makes the construction of its station raise anything else than
    [ValidationError], it returns [True] after one request, and leaves a
    registry whose stations are exactly the records that validate, in feed
    order (a record that does not validate is left out and the ones after it
    are still processed), and whose [updated_at] is the clock after
    processing. *)
Theorem update_200_replaces_stations (self : StationsClient) (force : bool)
    (now_start : Z) (records : list (list (string * json))) (now_end : Z) :
  force = true ∨ timedelta_seconds 30 ≤ now_start - updated_at self →
  Forall no_stray_exception records →
  ∃ trace,
    update self force now_start (Response 200 (Ok (JArr (JObj <$> records)))) now_end
      = (Ok true,
         {| stations := valid_stations records; updated_at := now_end |},
         trace)
    ∧ api_calls trace = 1%nat
    ∧ (∀ st, st ∈ valid_stations records
             ↔ ∃ fields, fields ∈ records ∧ Station_init fields = Ok st)
    ∧ (∀ before fields after, records = before ++ fields :: after →
         Station_init fields = Raise ValidationError →
         valid_stations records = valid_stations before ++ valid_stations after).
Proof.
  intros Hreq Hquiet.
  destruct (update_200_records self force now_start records now_end Hreq Hquiet)
    as (trace & Hup & Hcalls).
  exists trace. split_and!; [done..| |].
  - intros st. unfold valid_stations. rewrite list_elem_of_omap.
    split; intros (fields & Hin & Hst); exists fields; split; try done.
    + by destruct (Station_init fields) as [st'|]; simplify_eq.
    + by rewrite Hst.
  - intros before fields after -> Hbad. unfold valid_stations.
    rewrite omap_app. simpl. by rewrite Hbad.
Qed.

(** C5, as amended. With [force] unset and data less than 30 seconds old,
    [update] returns [True] at once, makes no request and leaves the
    registry unchanged. Consequently, when an [update(force=False)] makes
    its request and returns [True], and a second [update(force=False)] starts
    less than 30 seconds after the first one completed, the second makes no
    request and the two calls make exactly one. The first call does make its
    request and return [True] when the data is at least 30 seconds old and
    the response has status 200 and a body of records none of which makes
    the construction of its station raise anything else than
    [ValidationError]. *)
Theorem update_within_30_seconds_uses_cache :
  (∀ (self : StationsClient) (now_start : Z) (net : http) (now_end : Z),
     now_start - updated_at self < timedelta_seconds 30 →
     update self false now_start net now_end = (Ok true, self, [Log DEBUG])
     ∧ api_calls [Log DEBUG] = 0%nat)
  ∧ (∀ (self fetched : StationsClient) (net1 net2 : http)
       (start1 end1 start2 end2 : Z) (trace1 : list event),
       update self false start1 net1 end1 = (Ok true, fetched, trace1) →
       api_calls trace1 = 1%nat →
       start2 - end1 < timedelta_seconds 30 →
       update fetched false start2 net2 end2 = (Ok true, fetched, [Log DEBUG])
       ∧ api_calls (trace1 ++ [Log DEBUG]) = 1%nat)
  ∧ (∀ (self : StationsClient) (records : list (list (string * json)))
       (start1 end1 : Z),
       timedelta_seconds 30 ≤ start1 - updated_at self →
       Forall no_stray_exception records →
       ∃ fetched trace1,
         update self false start1
           (Response 200 (Ok (JArr (JObj <$> records)))) end1
           = (Ok true, fetched, trace1)
         ∧ api_calls trace1 = 1%nat).
Proof.
  assert (Hcache : ∀ self now_start net now_end,
            now_start - updated_at self < timedelta_seconds 30 →
            update self false now_start net now_end
              = (Ok true, self, [Log DEBUG])).
  { intros self now_start net now_end Hfresh. unfold update.
    by rewrite bool_decide_eq_true_2 by done. }
  split_and!.
  - intros self now_start net now_end Hfresh. split; [by apply Hcache|done].
  - intros self fetched net1 net2 start1 end1 start2 end2 trace1 Hup Hcalls Hsoon.
    split; [|by rewrite api_calls_app, Hcalls].
    apply Hcache. by rewrite (update_fetched _ _ _ _ _ _ _ Hup Hcalls).
  - intros self records start1 end1 Hold Hquiet.
    destruct (update_200_records self false start1 records end1)
      as (trace1 & Hup & Hcalls); [by right|done|].
    by eexists _, trace1.
Qed.

(** *** Filtering and lookups *)

Lemma filter_always {A : Type} (P : A → Prop) `{!∀ x, Decision (P x)}
    (l : list A) :
  (∀ x, P x) → filter P l = l.
Proof.
  intros HP. induction l as [|x l IH]; [done|].
  by rewrite filter_cons_True, IH.
Qed.

Lemma filter_never {A : Type} (P : A → Prop) `{!∀ x, Decision (P x)}
    (l : list A) :
  (∀ x, x ∈ l → ¬ P x) → filter P l = [].
Proof.
  intros HP. induction l as [|x l IH]; [done|].
  rewrite filter_cons_False by (apply HP; left).
  apply IH. intros y Hy. apply HP. by right.
Qed.

Lemma filter_stage_satisfies (criterion : option (list string))
    (field : Station → string) (fs : list Station) :
  filter_stage criterion field fs = filter (λ s, satisfies criterion (field s)) fs.
Proof.
  destruct criterion as [[|x l]|]; simpl; [|done|].
  all: symmetry; by apply filter_always.
Qed.

Lemma filter_stations_filter (self : StationsClient)
    (station_ids city_names station_names : option (list string)) :
  filter_stations self station_ids city_names station_names
    = filter (λ s, satisfies station_ids (id s)
                   ∧ satisfies city_names (cityName s)
                   ∧ satisfies station_names (stationName s)) (stations self).
Proof.
  unfold filter_stations. rewrite !filter_stage_satisfies, !list_filter_filter.
  apply list_filter_iff. intros s. tauto.
Qed.

(** C7. [filter_stations] returns exactly the stations of the registry that
    satisfy every criterion that is given and not empty, in the order the
    registry holds them; a criterion that is absent or empty constrains
    nothing, so that with no effective criterion every station is returned. *)
Theorem filter_stations_conjunction (self : StationsClient)
    (station_ids city_names station_names : option (list string)) :
  filter_stations self station_ids city_names station_names
    = filter (λ s, satisfies station_ids (id s)
                   ∧ satisfies city_names (cityName s)
                   ∧ satisfies station_names (stationName s)) (stations self)
  ∧ filter_stations self station_ids city_names station_names
      `sublist_of` stations self
  ∧ (∀ s, s ∈ filter_stations self station_ids city_names station_names
          ↔ s ∈ stations self
            ∧ satisfies station_ids (id s)
            ∧ satisfies city_names (cityName s)
            ∧ satisfies station_names (stationName s))
  ∧ (∀ x, satisfies None x ∧ satisfies (Some []) x)
  ∧ (∀ a b c : bool,
       filter_stations self (if a then None else Some [])
         (if b then None else Some []) (if c then None else Some [])
       = stations self).
Proof.
  pose proof (filter_stations_filter self station_ids city_names station_names)
    as Heq.
  split_and!.
  - done.
  - rewrite Heq. apply sublist_filter.
  - intros s. rewrite Heq, list_elem_of_filter. tauto.
  - done.
  - by intros [] [] [].
Qed.

(** C10. Right after construction the registry has no station and its
    [updated_at] is the construction time; an [update(force=False)] started
    less than 30 seconds later returns [True] without a request and leaves
    that registry, on which [cities], [city_stations] and [filter_stations]
    find nothing. *)
Theorem fresh_registry_is_empty_and_cached (construction now_start : Z)
    (net : http) (now_end : Z) :
  now_start - construction < timedelta_seconds 30 →
  stations (StationsClient_init construction) = []
  ∧ updated_at (StationsClient_init construction) = construction
  ∧ ∃ after trace,
      update (StationsClient_init construction) false now_start net now_end
        = (Ok true, after, trace)
      ∧ api_calls trace = 0%nat
      ∧ after = StationsClient_init construction
      ∧ cities after = []
      ∧ (∀ city, city_stations after city = [])
      ∧ (∀ station_ids city_names station_names,
           filter_stations after station_ids city_names station_names = []).
Proof.
  intros Hsoon. split_and!; [done..|].
  exists (StationsClient_init construction), [Log DEBUG]. split_and!.
  - unfold update. simpl. by rewrite bool_decide_eq_true_2 by done.
  - done.
  - done.
  - done.
  - done.
  - intros ids cs ns. by rewrite filter_stations_filter.
Qed.

Lemma elem_of_cities (self : StationsClient) (city : string) :
  city ∈ cities self ↔ ∃ s, s ∈ stations self ∧ cityName s = city.
Proof.
  unfold cities. rewrite merge_sort_Permutation, elem_of_elements,
    elem_of_list_to_set, list_elem_of_fmap.
  split; intros (s & ? & ?); exists s; by split.
Qed.

(** X1. [cities] lists the city names of the stations of the registry, each
    once, in increasing order. *)
Theorem cities_sorted_without_duplicates (self : StationsClient) :
  StronglySorted String.le (cities self)
  ∧ NoDup (cities self)
  ∧ (∀ city, city ∈ cities self ↔ ∃ s, s ∈ stations self ∧ cityName s = city).
Proof.
  split_and!.
  - apply StronglySorted_merge_sort; apply _.
  - unfold cities. rewrite merge_sort_Permutation. apply NoDup_elements.
  - apply elem_of_cities.
Qed.

(** X2. [city_stations] gives the id and name of the stations of the city,
    in the order of the registry; for a city that no station of the registry
    is in, it gives the empty list. *)
Theorem city_stations_of_city (self : StationsClient) (city : string) :
  city_stations self city
    = (λ c, (id c, stationName c)) <$> filter (λ s, cityName s = city) (stations self)
  ∧ ((∀ s, s ∈ stations self → cityName s ≠ city) → city_stations self city = []).
Proof.
  assert (Heq : city_stations self city
    = (λ c, (id c, stationName c))
        <$> filter (λ s, cityName s = city) (stations self)).
  { unfold city_stations. case_bool_decide as Hin.
    - rewrite filter_never; [done|]. intros s Hs Hc.
      apply Hin, elem_of_cities. by exists s.
    - unfold filter_stations. simpl. f_equal.
      apply list_filter_iff. intros s. rewrite list_elem_of_singleton. done. }
  split; [done|].
  intros Hnone. rewrite Heq, filter_never; [done|]. intros s Hs. by apply Hnone.
Qed.

Lemma list_pop_nil {A : Type} : list_pop (@nil A) = Raise IndexError.
Proof. done. Qed.

(** Looking up a station id that no station of the registry has raises
    [IndexError]: the list of matches is empty when it is popped. *)
Lemma get_sensor_unknown_station (self : StationsClient) (station_id : string)
    (kind : PollutantType) (clock : nat → Z) :
  (∀ s, s ∈ stations self → id s ≠ station_id) →
  get_sensor self station_id kind clock = Raise IndexError.
Proof.
  intros Hnone. unfold get_sensor, filter_stations. simpl.
  rewrite filter_never; [done|].
  intros s Hs ?%list_elem_of_singleton. by apply (Hnone s).
Qed.

(** When the station is found and none of its sensors has the requested
    kind, the lookup returns [None]. *)
Lemma get_sensor_unknown_kind (self : StationsClient) (station_id : string)
    (kind : PollutantType) (clock : nat → Z) (station : Station)
    (rs : list SaveEcoBotSensorModel) :
  last (filter (λ s, id s ∈ [station_id]) (stations self)) = Some station →
  sensors station clock = Ok rs →
  (∀ p, p ∈ pollutants station → pol p ≠ kind) →
  get_sensor self station_id kind clock = Ok None.
Proof.
  intros Hlast Hrs Hkind. unfold get_sensor, filter_stations, list_pop. simpl.
  rewrite Hlast. simpl. rewrite Hrs. simpl.
  rewrite filter_never; [done|].
  intros r Hr Hty.
  apply sensors_loop_inv in Hrs as (rs' & -> & Hlen & Hrs'). simpl in Hr.
  apply list_elem_of_lookup in Hr as [j Hj].
  destruct (lookup_lt_is_Some_2 (pollutants station) j) as [p Hp].
  { rewrite <- Hlen. by eapply lookup_lt_Some. }
  destruct (Hrs' j p Hp) as (r' & Hr' & Hs).
  assert (r' = r) as -> by congruence.
  apply sensor_of_inv in Hs as (_ & _ & _ & _ & _ & _ & Hpol & _).
  apply (Hkind p); [by eapply list_elem_of_lookup_2|congruence].
Qed.

(** C1. A lookup of a station id that the registry does not hold does not
    return an absent result: on a registry that has just been constructed
    (no station, hence no station "station-1"),
    [get_sensor("station-1", PM2_5)] raises [IndexError], and so does the
    lookup of any id that no station of any registry has. Only the other
    miss, a station that is found and has no sensor of the requested kind,
    gives the absent result [None]. *)
Theorem get_sensor_missing_station_raises :
  (∀ (construction : Z) (clock : nat → Z),
     get_sensor (StationsClient_init construction) "station-1" PM2_5 clock
       = Raise IndexError)
  ∧ (∀ (self : StationsClient) (station_id : string) (kind : PollutantType)
       (clock : nat → Z),
       (∀ s, s ∈ stations self → id s ≠ station_id) →
       get_sensor self station_id kind clock = Raise IndexError)
  ∧ (∀ (self : StationsClient) (station_id : string) (kind : PollutantType)
       (clock : nat → Z) (station : Station) (rs : list SaveEcoBotSensorModel),
       last (filter (λ s, id s ∈ [station_id]) (stations self)) = Some station →
       sensors station clock = Ok rs →
       (∀ p, p ∈ pollutants station → pol p ≠ kind) →
       get_sensor self station_id kind clock = Ok None).
Proof.
  split_and!.
  - intros construction clock. apply get_sensor_unknown_station.
    by intros s ?%elem_of_nil.
  - apply get_sensor_unknown_station.
  - apply get_sensor_unknown_kind.
Qed.

(** *** More on the derivation of sensor records *)

Lemma sensor_of_underivable (self : Station) (now : Z) (p : Pollutant) :
  ¬ derivable p → sensor_of self now p = Raise (underivable_error p).
Proof.
  intros Hp. unfold sensor_of, underivable_error. rewrite hass_unit_Ok.
  destruct (time p) as [t|] eqn:Ht; simpl; [|done].
  unfold datetime_sub. simpl.
  destruct (tzinfo t) as [off|] eqn:Htz; simpl; [done|].
  destruct (value p) as [v|] eqn:Hv; simpl; [|done].
  destruct Hp. by exists t, v.
Qed.

Lemma sensor_of_raises (self : Station) (now : Z) (p : Pollutant) (e : exn) :
  sensor_of self now p = Raise e → e = TypeError ∨ e = ValidationError.
Proof.
  unfold sensor_of. rewrite hass_unit_Ok.
  destruct (time p) as [t|]; simpl; [|intros [= <-]; by left].
  unfold datetime_sub. simpl.
  destruct (tzinfo t); simpl; [intros [= <-]; by left|].
  destruct (value p); simpl; [done|intros [= <-]; by right].
Qed.

Lemma sensor_of_derivable (self : Station) (now : Z) (p : Pollutant) :
  derivable p → ∃ r, sensor_of self now p = Ok r.
Proof. intros (t & v & Ht & Htz & Hv). by eapply sensor_of_Ok. Qed.

Lemma sensors_loop_first_error (self : Station) (clock : nat → Z)
    (p : Pollutant) (post : list Pollutant) (e : exn) (pre : list Pollutant) :
  ∀ (i : nat) (acc : list SaveEcoBotSensorModel),
    (∀ q, q ∈ pre → derivable q) →
    sensor_of self (clock (i + length pre)%nat) p = Raise e →
    sensors_loop self clock i (pre ++ p :: post) acc = Raise e.
Proof.
  induction pre as [|q pre IH]; intros i acc Hpre He; simpl in *.
  - rewrite Nat.add_0_r in He. by rewrite He.
  - destruct (sensor_of_derivable self (clock i) q) as [r ->]; [apply Hpre; left|].
    simpl. apply IH.
    + intros q' Hq'. apply Hpre. by right.
    + by replace (S i + length pre)%nat with (i + S (length pre))%nat by lia.
Qed.

(** X3. [sensors] returns a list exactly when every pollutant of the station
    has a value and a naive timestamp. Otherwise it raises what the first
    pollutant that lacks one of them makes it raise: [TypeError] for a
    missing or aware timestamp, [ValidationError] for a missing value. *)
Theorem sensors_returns_iff_all_derivable (self : Station) (clock : nat → Z) :
  ((∃ rs, sensors self clock = Ok rs) ↔ ∀ p, p ∈ pollutants self → derivable p)
  ∧ (∀ pre p post,
       pollutants self = pre ++ p :: post →
       (∀ q, q ∈ pre → derivable q) →
       ¬ derivable p →
       sensors self clock = Raise (underivable_error p)
       ∧ (underivable_error p = ValidationError
          ↔ ∃ t, time p = Some t ∧ tzinfo t = None ∧ value p = None)).
Proof.
  split; [split|].
  - intros [rs Hrs] p Hp.
    apply sensors_loop_inv in Hrs as (rs' & _ & _ & Hrs').
    apply list_elem_of_lookup in Hp as [j Hj].
    destruct (Hrs' j p Hj) as (r & _ & Hr).
    apply sensor_of_inv in Hr as (t & v & Ht & Htz & Hv & _). by exists t, v.
  - intros Hall. apply sensors_loop_total. intros j p Hj.
    apply sensor_of_derivable, Hall. by eapply list_elem_of_lookup_2.
  - intros pre p post Hsplit Hpre Hp. split.
    + unfold sensors. rewrite Hsplit.
      apply sensors_loop_first_error; [done|]. by apply sensor_of_underivable.
    + unfold underivable_error.
      destruct (time p) as [t|] eqn:Ht; [|by split; [|intros (? & ? & _)]].
      destruct (tzinfo t) as [off|] eqn:Htz.
      * split; [done|]. intros (t' & [= <-] & Htz' & _). congruence.
      * split; [|done]. intros _. exists t. split_and!; [done..|].
        destruct (value p) as [v|] eqn:Hv; [|done].
        destruct Hp. by exists t, v.
Qed.

Lemma sensors_raises (self : Station) (clock : nat → Z) (e : exn) :
  sensors self clock = Raise e → e = TypeError ∨ e = ValidationError.
Proof.
  unfold sensors.
  generalize (@nil SaveEcoBotSensorModel), 0%nat.
  induction (pollutants self) as [|q ps IH]; intros acc i; simpl; [done|].
  destruct (sensor_of self (clock i) q) as [r|e'] eqn:Hq; simpl.
  - apply IH.
  - intros [= <-]. by eapply sensor_of_raises.
Qed.

(** *** More on the lookup of a sensor *)

Lemma filter_id_last (before after : list Station) (station : Station)
    (station_id : string) :
  id station = station_id →
  (∀ s, s ∈ after → id s ≠ station_id) →
  last (filter (λ s, id s ∈ [station_id]) (before ++ station :: after))
    = Some station.
Proof.
  intros Hid Hafter.
  rewrite filter_app, filter_cons_True by (rewrite Hid; by left).
  rewrite (filter_never _ after).
  - apply last_snoc.
  - intros s Hs ?%list_elem_of_singleton. by apply (Hafter s).
Qed.

Lemma get_sensor_found (self : StationsClient) (station_id : string)
    (kind : PollutantType) (clock : nat → Z) (before after : list Station)
    (station : Station) :
  stations self = before ++ station :: after →
  id station = station_id →
  (∀ s, s ∈ after → id s ≠ station_id) →
  get_sensor self station_id kind clock
  = (rs ← sensors station clock;
     Ok (last (filter (λ r, sensor_type r = kind) rs))).
Proof.
  intros Hsplit Hid Hafter. unfold get_sensor, filter_stations, list_pop. simpl.
  rewrite Hsplit, filter_id_last by done. simpl.
  destruct (sensors station clock) as [rs|e]; simpl; [|done].
  destruct (filter (λ r, sensor_type r = kind) rs) as [|r l] eqn:Hf; [done|].
  destruct (last_is_Some (r :: l)) as [_ [x Hx]]; [done|]. by rewrite Hx.
Qed.

Lemma sensors_last_of_kind (station : Station) (clock : nat → Z)
    (kind : PollutantType) (pbefore pafter : list Pollutant) (p : Pollutant) :
  (∀ q, q ∈ pollutants station → derivable q) →
  pollutants station = pbefore ++ p :: pafter →
  pol p = kind →
  (∀ q, q ∈ pafter → pol q ≠ kind) →
  ∃ rs r, sensors station clock = Ok rs
    ∧ last (filter (λ r0, sensor_type r0 = kind) rs) = Some r
    ∧ sensor_of station (clock (length pbefore)) p = Ok r.
Proof.
  intros Hall Hps Hpol Hpafter.
  destruct (sensors_loop_total station clock (pollutants station) 0%nat [])
    as [rs Hrs].
  { intros j q Hj. apply sensor_of_derivable, Hall.
    by eapply list_elem_of_lookup_2. }
  exists rs. unfold sensors. rewrite Hrs.
  apply sensors_loop_inv in Hrs as (rs' & -> & Hlen & Hrs'). simpl.
  destruct (Hrs' (length pbefore) p) as (r & Hr & Hs).
  { rewrite Hps. by apply list_lookup_middle. }
  exists r. simpl in Hs. split_and!; [done| |done].
  pose proof Hs as (_ & _ & _ & _ & _ & _ & Hty & _)%sensor_of_inv.
  rewrite <- (take_drop_middle rs' (length pbefore) r) by done.
  rewrite filter_app, filter_cons_True by congruence.
  rewrite (filter_never _ (drop _ _)); [apply last_snoc|].
  intros r' Hr' Hkind.
  apply list_elem_of_lookup in Hr' as [j Hj]. rewrite lookup_drop in Hj.
  destruct (lookup_lt_is_Some_2 (pollutants station) (S (length pbefore) + j))
    as [q Hq].
  { rewrite <- Hlen. by eapply lookup_lt_Some. }
  destruct (Hrs' _ q Hq) as (r'' & Hr'' & Hs'').
  assert (r'' = r') as -> by congruence.
  apply sensor_of_inv in Hs'' as (_ & _ & _ & _ & _ & _ & Hty' & _).
  apply (Hpafter q); [|congruence].
  rewrite Hps in Hq. rewrite lookup_app_r in Hq by lia.
  replace (S (length pbefore) + j - length pbefore)%nat with (S j) in Hq by lia.
  by eapply list_elem_of_lookup_2.
Qed.

(** X4. When several stations of the registry have the requested id, the
    last one is looked up, and among its pollutants of the requested kind
    the last one: [get_sensor] returns the record derived from that
    pollutant, at the clock reading of its turn in the loop. *)
Theorem get_sensor_last_station_last_pollutant (self : StationsClient)
    (sid : string) (kind : PollutantType) (clock : nat → Z)
    (before after : list Station) (station : Station)
    (pbefore pafter : list Pollutant) (p : Pollutant) :
  stations self = before ++ station :: after →
  id station = sid →
  (∀ s, s ∈ after → id s ≠ sid) →
  (∀ q, q ∈ pollutants station → derivable q) →
  pollutants station = pbefore ++ p :: pafter →
  pol p = kind →
  (∀ q, q ∈ pafter → pol q ≠ kind) →
  ∃ r, get_sensor self sid kind clock = Ok (Some r)
    ∧ sensor_of station (clock (length pbefore)) p = Ok r
    ∧ value p = Some (state r)
    ∧ sensor_type r = kind
    ∧ station_id r = sid.
Proof.
  intros Hsplit Hid Hafter Hall Hps Hpol Hpafter.
  rewrite (get_sensor_found self sid kind clock before after station)
    by done.
  destruct (sensors_last_of_kind station clock kind pbefore pafter p)
    as (rs & r & -> & Hlast & Hs); [done..|].
  exists r. simpl. rewrite Hlast.
  pose proof Hs as (t & v & _ & _ & Hv & Hst & Hty & Hsid & _)%sensor_of_inv.
  split_and!; [done|done|by rewrite Hv, Hst|congruence|congruence].
Qed.

(** X5. When the station that is looked up holds a pollutant without a
    value or without a naive timestamp, [get_sensor] raises, whatever the
    kind asked for. *)
Theorem get_sensor_raises_on_underivable_pollutant (self : StationsClient)
    (sid : string) (kind : PollutantType) (clock : nat → Z)
    (before after : list Station) (station : Station) (p : Pollutant) :
  stations self = before ++ station :: after →
  id station = sid →
  (∀ s, s ∈ after → id s ≠ sid) →
  p ∈ pollutants station →
  ¬ derivable p →
  ∃ e, get_sensor self sid kind clock = Raise e
    ∧ (e = TypeError ∨ e = ValidationError).
Proof.
  intros Hsplit Hid Hafter Hin Hp.
  rewrite (get_sensor_found self sid kind clock before after station)
    by done.
  destruct (sensors station clock) as [rs|e] eqn:Hrs.
  - apply sensors_loop_inv in Hrs as (rs' & _ & _ & Hrs').
    apply list_elem_of_lookup in Hin as [j Hj].
    destruct (Hrs' j p Hj) as (r & _ & Hr).
    apply sensor_of_inv in Hr as (t & v & Ht & Htz & Hv & _).
    destruct Hp. by exists t, v.
  - exists e. split; [done|]. by eapply sensors_raises.
Qed.

(** *** More on the refresh *)

Lemma update_loop_outcome (items : list json) :
  ∀ (acc : list Station) (trace : list event),
    ∃ r sts errors,
      update_loop items acc trace = (r, sts, trace ++ errors)
      ∧ Forall (λ e, e = Log ERROR) errors.
Proof.
  induction items as [|item items IH]; intros acc trace; simpl.
  - exists (Ok ()), acc, []. by rewrite app_nil_r.
  - destruct item as [|b|n|x|str|l|fields];
      try (exists (Raise TypeError), acc, []; by rewrite app_nil_r).
    destruct (Station_init fields) as [st|e]; [apply IH|].
    destruct e;
      try (eexists (Raise _), acc, []; by rewrite app_nil_r).
    destruct (IH acc (trace ++ [Log ERROR])) as (r & sts & errors & -> & Herr).
    exists r, sts, (Log ERROR :: errors). split; [by rewrite <- app_assoc|].
    by constructor.
Qed.

Lemma update_api_calls (self : StationsClient) (force : bool) (now_start : Z)
    (net : http) (now_end : Z) (r : result bool) (after : StationsClient)
    (trace : list event) :
  update self force now_start net now_end = (r, after, trace) →
  api_calls trace
    = (if served_from_cache self force now_start then 0 else 1)%nat.
Proof.
  unfold update, served_from_cache. cbv zeta.
  destruct (bool_decide _ && negb force) eqn:Hc; [by intros [= <- <- <-]|].
  destruct net as [status body|e]; [|by intros [= <- <- <-]].
  destruct (decide (status = 200)) as [->|Hs];
    [|rewrite bool_decide_eq_true_2 by done; by intros [= <- <- <-]].
  rewrite bool_decide_eq_false_2 by (intros Hne; by apply Hne).
  destruct body as [body|e]; [|by intros [= <- <- <-]].
  destruct (py_iter body) as [items|e]; [|by intros [= <- <- <-]].
  destruct (update_loop_outcome items [] [Log INFO; ApiCall])
    as (r' & sts & errors & -> & Herr).
  destruct r' as [[]|e]; intros [= <- <- <-].
  - change (api_calls (([Log INFO; ApiCall] ++ errors) ++ [Log DEBUG]) = 1%nat).
    by rewrite !api_calls_app, (api_calls_errors errors).
  - change (api_calls ([Log INFO; ApiCall] ++ errors) = 1%nat).
    by rewrite api_calls_app, (api_calls_errors errors).
Qed.

(** X6. Whatever the network answers, a call of [update] makes no request
    when it is served from the cache and exactly one otherwise; it returns
    [False] only with the registry untouched; it changes [updated_at] only
    when it returns [True], to the clock after processing; and it changes the
    stations only for a response of status 200 whose body was decoded. *)
Theorem update_one_request_and_guarded_changes (self : StationsClient)
    (force : bool) (now_start : Z) (net : http) (now_end : Z)
    (r : result bool) (after : StationsClient) (trace : list event) :
  update self force now_start net now_end = (r, after, trace) →
  api_calls trace
    = (if served_from_cache self force now_start then 0 else 1)%nat
  ∧ (r = Ok false → after = self)
  ∧ (updated_at after = updated_at self
     ∨ (r = Ok true ∧ updated_at after = now_end))
  ∧ (stations after = stations self
     ∨ ∃ body, net = Response 200 (Ok body)
               ∧ served_from_cache self force now_start = false).
Proof.
  intros Hup. split; [by eapply update_api_calls|]. revert Hup.
  unfold update, served_from_cache. cbv zeta.
  destruct (bool_decide _ && negb force) eqn:Hc.
  { intros [= <- <- <-]. split_and!; auto. }
  destruct net as [status body|e]; [|intros [= <- <- <-]; split_and!; auto; done].
  destruct (decide (status = 200)) as [->|Hs];
    [|rewrite bool_decide_eq_true_2 by done;
      intros [= <- <- <-]; split_and!; auto].
  rewrite bool_decide_eq_false_2 by (intros Hne; by apply Hne).
  destruct body as [body|e]; [|intros [= <- <- <-]; split_and!; auto; done].
  destruct (py_iter body) as [items|e];
    [|intros [= <- <- <-]; split_and!; eauto; done].
  destruct (update_loop_outcome items [] [Log INFO; ApiCall])
    as (r' & sts & errors & -> & Herr).
  destruct r' as [[]|e]; intros [= <- <- <-]; simpl; split_and!; eauto; done.
Qed.

(** X7. A refresh that fails does not open the 30 seconds window: after an
    [update(force=False)] on stale data met a transport failure or a status
    other than 200, the registry is as before and a later
    [update(force=False)] makes a request again. *)
Theorem update_failure_does_not_debounce (self : StationsClient)
    (start1 end1 start2 end2 : Z) (net1 net2 : http) :
  timedelta_seconds 30 ≤ start1 - updated_at self →
  start1 ≤ start2 →
  (∀ body, net1 ≠ Response 200 body) →
  ∃ r1 trace1 r2 after2 trace2,
    update self false start1 net1 end1 = (r1, self, trace1)
    ∧ r1 ≠ Ok true
    ∧ api_calls trace1 = 1%nat
    ∧ update self false start2 net2 end2 = (r2, after2, trace2)
    ∧ api_calls trace2 = 1%nat.
Proof.
  intros Hold Hlater Hfail.
  assert (Hreq : ∀ start, start1 ≤ start →
            served_from_cache self false start = false).
  { intros start Hstart. unfold served_from_cache.
    by rewrite bool_decide_eq_false_2 by lia. }
  destruct (update self false start2 net2 end2) as [[r2 after2] trace2] eqn:H2.
  pose proof (update_api_calls _ _ _ _ _ _ _ _ H2) as Hcalls2.
  rewrite Hreq in Hcalls2 by done.
  assert (H1 : ∃ r1 trace1, update self false start1 net1 end1 = (r1, self, trace1)
                 ∧ r1 ≠ Ok true ∧ api_calls trace1 = 1%nat).
  { unfold update. fold (served_from_cache self false start1).
    rewrite Hreq by done. cbv zeta.
    destruct net1 as [status body|e]; [|by eexists _, _].
    destruct (decide (status = 200)) as [->|Hs]; [by destruct (Hfail body)|].
    rewrite bool_decide_eq_true_2 by done. by eexists _, _. }
  destruct H1 as (r1 & trace1 & H1 & Hr1 & Hcalls1).
  by exists r1, trace1, r2, after2, trace2.
Qed.

(** The loop stops at the first entry that raises something else than
    [ValidationError], with the stations appended so far. *)
Lemma update_loop_aborts (bad : json) (rest : list json) (e : exn)
    (records : list (list (string * json))) :
  (∀ acc trace, update_loop (bad :: rest) acc trace = (Raise e, acc, trace)) →
  Forall no_stray_exception records →
  ∀ (acc : list Station) (trace : list event),
    ∃ errors, Forall (λ e, e = Log ERROR) errors
      ∧ update_loop ((JObj <$> records) ++ bad :: rest) acc trace
        = (Raise e, acc ++ valid_stations records, trace ++ errors).
Proof.
  intros Hbad.
  induction 1 as [|fields records Hquiet _ IH]; intros acc trace; csimpl.
  - exists []. rewrite !app_nil_r. split; [done|]. apply Hbad.
  - unfold valid_stations. csimpl. fold (valid_stations records).
    destruct (Station_init_cases fields Hquiet) as [[st ->] | ->].
    + destruct (IH (acc ++ [st]) trace) as (errors & Herr & ->).
      exists errors. split; [done|]. by rewrite <- app_assoc.
    + destruct (IH acc (trace ++ [Log ERROR])) as (errors & Herr & ->).
      exists (Log ERROR :: errors). split; [by constructor|].
      by rewrite <- app_assoc.
Qed.

Lemma update_200_aborts (self : StationsClient) (force : bool)
    (now_start now_end : Z) (bad : json) (rest : list json) (e : exn)
    (records : list (list (string * json))) :
  force = true ∨ timedelta_seconds 30 ≤ now_start - updated_at self →
  (∀ acc trace, update_loop (bad :: rest) acc trace = (Raise e, acc, trace)) →
  Forall no_stray_exception records →
  ∃ trace,
    update self force now_start
      (Response 200 (Ok (JArr ((JObj <$> records) ++ bad :: rest)))) now_end
      = (Raise e,
         {| stations := valid_stations records; updated_at := updated_at self |},
         trace)
    ∧ api_calls trace = 1%nat.
Proof.
  intros Hreq Hbad Hquiet. unfold update.
  rewrite update_makes_request by done.
  rewrite bool_decide_eq_false_2 by (intros Hne; by apply Hne). simpl.
  destruct (update_loop_aborts bad rest e records Hbad Hquiet []
              [Log INFO; ApiCall]) as (errors & Herr & ->). simpl.
  eexists. split; [done|].
  change (api_calls ([Log INFO; ApiCall] ++ errors) = 1%nat).
  by rewrite api_calls_app, (api_calls_errors errors).
Qed.

(** X8. A response of status 200 whose body is not a sequence of records
    that validate or raise [ValidationError] costs the registry its
    stations. When the body is null, a boolean or a number, [update] raises
    [TypeError] and leaves no station; when it is a sequence with an entry
    that is not a record, [update] raises [TypeError], and when it is a
    sequence with a record whose construction raises another exception than
    [ValidationError] (the [OverflowError] of an integer too large for a
    float), [update] raises that exception: in both cases, when the records
    before that entry validate or raise [ValidationError], it leaves those
    of them that validated. In all cases [updated_at] is not changed. *)
Theorem update_200_malformed_body_loses_stations (self : StationsClient)
    (force : bool) (now_start now_end : Z) :
  force = true ∨ timedelta_seconds 30 ≤ now_start - updated_at self →
  (∀ body,
     body = JNull ∨ (∃ b, body = JBool b) ∨ (∃ n, body = JInt n)
       ∨ (∃ x, body = JFloat x) →
     update self force now_start (Response 200 (Ok body)) now_end
       = (Raise TypeError, {| stations := []; updated_at := updated_at self |},
          [Log INFO; ApiCall]))
  ∧ (∀ records bad rest,
       Forall no_stray_exception records →
       (∀ fields, bad ≠ JObj fields) →
       ∃ trace,
         update self force now_start
           (Response 200 (Ok (JArr ((JObj <$> records) ++ bad :: rest)))) now_end
           = (Raise TypeError,
              {| stations := valid_stations records;
                 updated_at := updated_at self |}, trace)
         ∧ api_calls trace = 1%nat)
  ∧ (∀ records fields rest e,
       Forall no_stray_exception records →
       Station_init fields = Raise e →
       e ≠ ValidationError →
       ∃ trace,
         update self force now_start
           (Response 200 (Ok (JArr ((JObj <$> records) ++ JObj fields :: rest))))
           now_end
           = (Raise e,
              {| stations := valid_stations records;
                 updated_at := updated_at self |}, trace)
         ∧ api_calls trace = 1%nat).
Proof.
  intros Hreq. split_and!.
  - intros body Hbody. unfold update. rewrite update_makes_request by done.
    rewrite bool_decide_eq_false_2 by (intros Hne; by apply Hne).
    by destruct Hbody as [-> | [[b ->] | [[n ->] | [x ->]]]].
  - intros records bad rest Hquiet Hbad.
    apply update_200_aborts; [done| |done].
    intros acc trace. simpl. destruct bad; try done. by destruct (Hbad fields).
  - intros records fields rest e Hquiet Hraise He.
    apply update_200_aborts; [done| |done].
    intros acc trace. simpl. rewrite Hraise. by destruct e.
Qed.

(** *** Validation of feed records *)

Lemma PollutantType_validator_Some (v : json) (k : PollutantType) :
  PollutantType_validator v = Some k → v = JStr (PollutantType_value k).
Proof.
  destruct v as [|b|n|x|str|l|fields]; try done. simpl.
  unfold PollutantType_members. simpl.
  repeat case_bool_decide; try done; intros [= <-]; by subst.
Qed.

(** X9. The pollutant kind of the feed is decoded exactly: a value is
    accepted if and only if it is the string value of a member of the
    enumeration, and it is decoded to that member; two members never share a
    value. *)
Theorem PollutantType_validator_exact (v : json) (k : PollutantType) :
  (PollutantType_validator v = Some k ↔ v = JStr (PollutantType_value k))
  ∧ (∀ k', PollutantType_value k' = PollutantType_value k → k' = k).
Proof.
  split; [split|].
  - apply PollutantType_validator_Some.
  - intros ->. by destruct k.
  - intros k'. by destruct k, k'.
Qed.

Lemma validation_ap_Valid {A B : Type} (vf : validation (A → B))
    (va : validation A) (b : B) :
  vf ⊛ va = Valid b → ∃ f a, vf = Valid f ∧ va = Valid a ∧ b = f a.
Proof. destruct vf as [f| |e], va as [a| |e']; try done. intros [= <-]. by exists f, a. Qed.

Lemma validate_each_Valid {A : Type} (validator : json → validation A)
    (items : list json) (l : list A) :
  validate_each validator items = Valid l →
  Forall2 (λ item a, validator item = Valid a) items l.
Proof.
  revert l. induction items as [|item items IH]; intros l; simpl.
  - intros [= <-]. constructor.
  - fold (validate_each validator items).
    destruct (validator item) as [a| |e] eqn:Ha,
      (validate_each validator items) as [rest| |e']; try done.
    intros [= <-]. constructor; [done|]. by apply IH.
Qed.

(** What a record that validates tells about its eight fields. *)
Lemma Station_init_Ok (fields : list (string * json)) (st : Station) :
  Station_init fields = Ok st →
  required str_validator (dict_get "id" fields) = Valid (id st)
  ∧ required str_validator (dict_get "cityName" fields) = Valid (cityName st)
  ∧ required str_validator (dict_get "stationName" fields) = Valid (stationName st)
  ∧ required str_validator (dict_get "localName" fields) = Valid (localName st)
  ∧ required str_validator (dict_get "timezone" fields) = Valid (timezone st)
  ∧ required float_validator (dict_get "latitude" fields) = Valid (latitude st)
  ∧ required float_validator (dict_get "longitude" fields) = Valid (longitude st)
  ∧ required Pollutant_list_validator (dict_get "pollutants" fields)
    = Valid (pollutants st).
Proof.
  unfold Station_init.
  destruct (dict_get BaseModel_self fields); [done|].
  destruct (_ ⊛ required Pollutant_list_validator _) as [st'| |e] eqn:Hst;
    [|done..].
  intros [= ->].
  apply validation_ap_Valid in Hst as (f8 & a8 & Hst & H8 & ->).
  apply validation_ap_Valid in Hst as (f7 & a7 & Hst & H7 & ->).
  apply validation_ap_Valid in Hst as (f6 & a6 & Hst & H6 & ->).
  apply validation_ap_Valid in Hst as (f5 & a5 & Hst & H5 & ->).
  apply validation_ap_Valid in Hst as (f4 & a4 & Hst & H4 & ->).
  apply validation_ap_Valid in Hst as (f3 & a3 & Hst & H3 & ->).
  apply validation_ap_Valid in Hst as (f2 & a2 & Hst & H2 & ->).
  apply validation_ap_Valid in Hst as (f1 & a1 & [= <-] & H1 & ->).
  done.
Qed.

(** A record that does not validate raises, and raises [ValidationError]
    when nothing else escapes from its validators. *)
Lemma Station_init_not_Ok (fields : list (string * json)) :
  (∀ st, Station_init fields ≠ Ok st) →
  ∃ e, Station_init fields = Raise e
       ∧ (no_stray_exception fields → e = ValidationError).
Proof.
  intros Hnot. destruct (Station_init fields) as [st|e] eqn:Hinit.
  - by destruct (Hnot st).
  - exists e. split; [done|]. intros Hquiet. by apply Hquiet.
Qed.

Lemma Pollutant_init_unknown_kind (fields : list (string * json)) (p : Pollutant) :
  (∀ k, dict_get "pol" fields ≠ Some (JStr (PollutantType_value k))) →
  Pollutant_init fields ≠ Valid p.
Proof.
  intros Hpol Hp. unfold Pollutant_init in Hp.
  apply validation_ap_Valid in Hp as (f5 & a5 & Hp & _ & _).
  apply validation_ap_Valid in Hp as (f4 & a4 & Hp & _ & _).
  apply validation_ap_Valid in Hp as (f3 & a3 & Hp & _ & _).
  apply validation_ap_Valid in Hp as (f2 & a2 & Hp & _ & _).
  apply validation_ap_Valid in Hp as (f1 & k & _ & Hk & _).
  destruct (dict_get "pol" fields) as [v|]; [|done].
  assert (PollutantType_validator v = Some k) as Hv.
  { assert (accept (PollutantType_validator v) = Valid k) as Hacc
      by by destruct v.
    destruct (PollutantType_validator v) as [k'|]; [|done].
    by injection Hacc as ->. }
  apply PollutantType_validator_Some in Hv as ->. by destruct (Hpol k).
Qed.

(** X10. One pollutant entry of an unknown kind rejects the whole station:
    when an entry of "pollutants" is a record whose "pol" is not the value of
    a member of the enumeration, the station record does not validate. Its
    construction raises, and what it raises is [ValidationError] when no
    other exception escapes from the validators of the record. *)
Theorem unknown_kind_rejects_station (fields : list (string * json))
    (items : list json) (entry : list (string * json)) :
  dict_get "pollutants" fields = Some (JArr items) →
  JObj entry ∈ items →
  (∀ k, dict_get "pol" entry ≠ Some (JStr (PollutantType_value k))) →
  ∃ e, Station_init fields = Raise e
       ∧ (no_stray_exception fields → e = ValidationError).
Proof.
  intros Hps Hin Hpol. apply Station_init_not_Ok.
  intros st (_ & _ & _ & _ & _ & _ & _ & Hlist)%Station_init_Ok.
  rewrite Hps in Hlist. simpl in Hlist.
  apply validate_each_Valid in Hlist.
  apply list_elem_of_lookup in Hin as [i Hi].
  destruct (Forall2_lookup_l _ _ _ _ _ Hlist Hi) as (p & _ & Hp).
  simpl in Hp. unfold Pollutant_call in Hp.
  destruct (dict_get BaseModel_self entry); [done|].
  by apply Pollutant_init_unknown_kind in Hp.
Qed.

Lemma dict_get_cons_ne (key k : string) (v : json) (fields : list (string * json)) :
  k ≠ key → dict_get key ((k, v) :: fields) = dict_get key fields.
Proof. intros Hne. simpl. destruct (dict_get key fields); [done|]. by case_decide. Qed.

Lemma dict_get_cons_eq (key : string) (v : json) (fields : list (string * json)) :
  is_Some (dict_get key ((key, v) :: fields)).
Proof. simpl. destruct (dict_get key fields); [done|]. by case_decide. Qed.

(** X11. Every field of the station model is required, and nothing else is
    looked at: a record in which one of the eight declared keys is missing
    or null does not validate (its construction raises, and what it raises
    is [ValidationError] when no other exception comes out of the
    construction of the record), and adding a key that is not declared to a
    record does not change the outcome of its construction, unless the key
    is the name of the instance parameter of the constructor: a record with
    that key raises [TypeError]. *)
Theorem Station_init_required_and_extra_keys (fields : list (string * json)) :
  (∀ key, key ∈ Station_fields →
     dict_get key fields = None ∨ dict_get key fields = Some JNull →
     ∃ e, Station_init fields = Raise e
          ∧ (no_stray_exception fields → e = ValidationError))
  ∧ (∀ k v, k ∉ Station_fields → k ≠ BaseModel_self →
       Station_init ((k, v) :: fields) = Station_init fields)
  ∧ (∀ v, Station_init ((BaseModel_self, v) :: fields) = Raise TypeError).
Proof.
  split_and!.
  - intros key Hkey Hmissing. apply Station_init_not_Ok.
    intros st (H1 & H2 & H3 & H4 & H5 & H6 & H7 & H8)%Station_init_Ok.
    assert (∀ A (validator : json → validation A) a,
              required validator (dict_get key fields) ≠ Valid a) as Hnone.
    { intros A validator a. by destruct Hmissing as [-> | ->]. }
    unfold Station_fields in Hkey.
    repeat (apply elem_of_cons in Hkey as [-> | Hkey];
            [by eapply Hnone|]).
    by apply elem_of_nil in Hkey.
  - intros k v Hk Hself. unfold Station_init.
    rewrite !dict_get_cons_ne; [done|..|done].
    all: intros ->; apply Hk; unfold Station_fields; set_solver.
  - intros v. unfold Station_init.
    by destruct (dict_get_cons_eq BaseModel_self v fields) as [v' ->].
Qed.

(** *** Cities and their stations *)

Lemma city_stations_filter (self : StationsClient) (city : string) :
  city_stations self city
  = (λ c, (id c, stationName c)) <$> filter (λ s, cityName s = city) (stations self).
Proof.
  unfold city_stations. case_bool_decide as Hin.
  - rewrite filter_never; [done|]. intros s Hs Hc.
    apply Hin, elem_of_cities. by exists s.
  - unfold filter_stations. simpl. f_equal.
    apply list_filter_iff. intros s. by rewrite list_elem_of_singleton.
Qed.

(** X12. [cities] lists exactly the cities for which [city_stations] finds a
    station, and [city_stations] gives one pair for each station of the
    city. *)
Theorem city_listed_iff_it_has_stations (self : StationsClient) (city : string) :
  (city ∈ cities self ↔ city_stations self city ≠ [])
  ∧ length (city_stations self city)
    = length (filter (λ s, cityName s = city) (stations self))
  ∧ (∀ pair, pair ∈ city_stations self city
             ↔ ∃ s, s ∈ stations self ∧ cityName s = city
                    ∧ pair = (id s, stationName s)).
Proof.
  rewrite city_stations_filter. split_and!.
  - rewrite elem_of_cities. split.
    + intros (s & Hs & Hc) Hnil.
      assert (s ∈ filter (λ s, cityName s = city) (stations self)) as Hin
        by by apply list_elem_of_filter.
      apply fmap_nil_inv in Hnil. rewrite Hnil in Hin. by apply elem_of_nil in Hin.
    + intros Hne.
      destruct (filter (λ s, cityName s = city) (stations self)) as [|s l] eqn:Hf;
        [done|].
      assert (s ∈ filter (λ s, cityName s = city) (stations self)) as Hin
        by (rewrite Hf; left).
      apply list_elem_of_filter in Hin as [Hc Hs]. by exists s.
  - by rewrite length_fmap.
  - intros pair. rewrite list_elem_of_fmap. split.
    + intros (s & -> & [Hc Hs]%list_elem_of_filter). by exists s.
    + intros (s & Hs & Hc & ->). exists s. split; [done|].
      by apply list_elem_of_filter.
Qed.

(** *** Sensor entities *)

Lemma sensor_of_shown (self : Station) (now : Z) (p : Pollutant)
    (r : SaveEcoBotSensorModel) :
  sensor_of self now p = Ok r →
  name r = PollutantType_name (pol p) +:+ " (" +:+ cityName self +:+ ", "
             +:+ stationName self +:+ ")"
  ∧ attrs_getitem "unit_of_measurement" (device_state_attributes r)
    = Ok (AttrStr (default (unit p) (_units_translation !! unit p))).
Proof.
  unfold sensor_of. rewrite hass_unit_Ok.
  destruct (time p) as [t|]; simpl; [|done].
  unfold datetime_sub. simpl.
  destruct (tzinfo t); simpl; [done|].
  destruct (value p); simpl; [|done].
  by intros [= <-].
Qed.

(** X13. The [state] of an entity is the string "deprecated" when its model
    is flagged deprecated and the number of the model otherwise; it is never
    the string "unknown"; on an entity that has lost its model, reading the
    state raises [AttributeError]. *)
Theorem SaveEcoBotSensor_state_cases (self : SaveEcoBotSensor) :
  (∀ m, _model self = Some m →
     SaveEcoBotSensor_state self
     = Done (if deprecated m then StateStr "deprecated" else StateFloat (state m)))
  ∧ (_model self = None → SaveEcoBotSensor_state self = Fail AttributeError)
  ∧ SaveEcoBotSensor_state self ≠ Done (StateStr "unknown").
Proof.
  unfold SaveEcoBotSensor_state. split_and!.
  - intros m ->. by destruct (deprecated m).
  - by intros ->.
  - destruct (_model self) as [m|]; [|done]. by destruct (deprecated m).
Qed.

(** X14. The entity made from a record that [sensors] returned shows the
    pollutant it comes from: its name is "KIND (city, station)", its unit of
    measurement is the translated unit of the pollutant (the attribute is
    always there), and its state is "deprecated" when the reading was more
    than 12 hours old at the clock of its turn, the value of the pollutant
    otherwise. *)
Theorem entity_of_derived_record (self : Station) (clock : nat → Z)
    (rs : list SaveEcoBotSensorModel) (i : nat) (p : Pollutant)
    (r : SaveEcoBotSensorModel) :
  sensors self clock = Ok rs →
  pollutants self !! i = Some p →
  rs !! i = Some r →
  SaveEcoBotSensor_name (SaveEcoBotSensor_init r)
    = PollutantType_name (pol p) +:+ " (" +:+ cityName self +:+ ", "
        +:+ stationName self +:+ ")"
  ∧ SaveEcoBotSensor_unit_of_measurement (SaveEcoBotSensor_init r)
    = Done (AttrStr (match _units_translation !! unit p with
                     | Some canonical => canonical
                     | None => unit p
                     end))
  ∧ ∃ t v, time p = Some t ∧ value p = Some v
      ∧ SaveEcoBotSensor_state (SaveEcoBotSensor_init r)
        = Done (if bool_decide (clock i - wall t > timedelta_hours 12)
                then StateStr "deprecated" else StateFloat v).
Proof.
  intros Hrs Hp Hr.
  apply sensors_loop_inv in Hrs as (rs' & -> & _ & Hrs'). simpl in Hr.
  destruct (Hrs' i p Hp) as (r' & Hr' & Hs).
  assert (r' = r) as -> by congruence. simpl in Hs.
  pose proof (sensor_of_shown _ _ _ _ Hs) as [Hname Hunit].
  apply sensor_of_inv in Hs as (t & v & Ht & _ & Hv & Hst & _ & _ & Hdep).
  split_and!.
  - done.
  - unfold SaveEcoBotSensor_unit_of_measurement. simpl. rewrite Hunit.
    by destruct (_ !! _).
  - exists t, v. split_and!; [done..|].
    unfold SaveEcoBotSensor_state. simpl.
    unfold SENSOR_DEPRECATION_HOURS in Hdep. rewrite Hdep, Hst.
    by case_bool_decide.
Qed.

(** X15. An entity that has lost its model never gets one again: every
    later [async_update] still refreshes the shared registry, then raises,
    and leaves the entity as it was. *)
Theorem async_update_without_model_never_recovers (self : SaveEcoBotSensor)
    (client : StationsClient) (now_start : Z) (net : http) (now_end : Z)
    (clock : nat → Z) :
  _model self = None →
  ∃ e, SaveEcoBotSensor_async_update self client now_start net now_end clock
       = (Fail e, self, (update client false now_start net now_end).1.2,
          (update client false now_start net now_end).2)
    ∧ ((∃ b, (update client false now_start net now_end).1.1 = Ok b) →
       e = AttributeError).
Proof.
  intros Hm. unfold SaveEcoBotSensor_async_update. rewrite Hm.
  destruct (update client false now_start net now_end) as [[[b|e] c] t]; simpl.
  - by eexists.
  - eexists. split; [done|]. by intros [b [=]].
Qed.

(** X16. When the refresh does not raise and the refreshed registry still
    holds the station with derivable pollutants, one of them of the kind of
    the entity, [async_update] replaces the model of the entity by the record
    derived anew from the last such pollutant of the last such station, and
    keeps the name. The value [update] returned plays no part. *)
Theorem async_update_replaces_model (self : SaveEcoBotSensor)
    (m : SaveEcoBotSensorModel) (client after : StationsClient)
    (now_start : Z) (net : http) (now_end : Z) (clock : nat → Z)
    (b : bool) (trace : list event) (before later : list Station)
    (station : Station) (pbefore pafter : list Pollutant) (p : Pollutant) :
  _model self = Some m →
  update client false now_start net now_end = (Ok b, after, trace) →
  stations after = before ++ station :: later →
  id station = station_id m →
  (∀ s, s ∈ later → id s ≠ station_id m) →
  (∀ q, q ∈ pollutants station → derivable q) →
  pollutants station = pbefore ++ p :: pafter →
  pol p = sensor_type m →
  (∀ q, q ∈ pafter → pol q ≠ sensor_type m) →
  ∃ r, SaveEcoBotSensor_async_update self client now_start net now_end clock
       = (Done (), {| _model := Some r; _name := _name self |}, after,
          trace ++ [Log DEBUG])
    ∧ sensor_of station (clock (length pbefore)) p = Ok r
    ∧ value p = Some (state r).
Proof.
  intros Hm Hup Hst Hid Hlater Hall Hps Hpol Hpafter.
  unfold SaveEcoBotSensor_async_update. rewrite Hup, Hm.
  rewrite (get_sensor_found after (station_id m) (sensor_type m) clock
             before later station) by done.
  destruct (sensors_last_of_kind station clock (sensor_type m) pbefore pafter p)
    as (rs & r & -> & Hlast & Hs); [done..|].
  simpl. rewrite Hlast. exists r.
  pose proof Hs as (t & v & _ & _ & Hv & Hstate & _)%sensor_of_inv.
  split_and!; [done|done|by rewrite Hv, Hstate].
Qed.

(** X17. Two ways for [async_update] to fail and leave the entity with its
    former model: the refresh raises (a transport failure, a body that
    cannot be decoded), and the entity is not looked up; or the refresh does
    not raise and the refreshed registry has no station with the id of the
    entity, and the lookup raises [IndexError]. *)
Theorem async_update_failures_keep_model (self : SaveEcoBotSensor)
    (m : SaveEcoBotSensorModel) (client after : StationsClient)
    (now_start : Z) (net : http) (now_end : Z) (clock : nat → Z)
    (r : result bool) (trace : list event) :
  _model self = Some m →
  update client false now_start net now_end = (r, after, trace) →
  (∀ e, r = Raise e →
     SaveEcoBotSensor_async_update self client now_start net now_end clock
     = (Fail (Core e), self, after, trace))
  ∧ (∀ b, r = Ok b →
       (∀ s, s ∈ stations after → id s ≠ station_id m) →
       SaveEcoBotSensor_async_update self client now_start net now_end clock
       = (Fail (Core IndexError), self, after, trace)).
Proof.
  intros Hm Hup. unfold SaveEcoBotSensor_async_update. rewrite Hup, Hm. split.
  - by intros e ->.
  - intros b -> Hnone. by rewrite get_sensor_unknown_station.
Qed.

(** X18. When the refresh does not raise and the station of the entity is
    still in the refreshed registry, with derivable pollutants none of which
    is of the kind of the entity, [async_update] returns normally and leaves
    the entity without model: from then on its state raises
    [AttributeError]. *)
Theorem async_update_loses_model_when_kind_is_gone (self : SaveEcoBotSensor)
    (m : SaveEcoBotSensorModel) (client after : StationsClient)
    (now_start : Z) (net : http) (now_end : Z) (clock : nat → Z)
    (b : bool) (trace : list event) (before later : list Station)
    (station : Station) :
  _model self = Some m →
  update client false now_start net now_end = (Ok b, after, trace) →
  stations after = before ++ station :: later →
  id station = station_id m →
  (∀ s, s ∈ later → id s ≠ station_id m) →
  (∀ q, q ∈ pollutants station → derivable q) →
  (∀ q, q ∈ pollutants station → pol q ≠ sensor_type m) →
  SaveEcoBotSensor_async_update self client now_start net now_end clock
    = (Done (), {| _model := None; _name := _name self |}, after,
       trace ++ [Log ERROR])
  ∧ SaveEcoBotSensor_state {| _model := None; _name := _name self |}
    = Fail AttributeError.
Proof.
  intros Hm Hup Hst Hid Hlater Hall Hkind. split; [|done].
  unfold SaveEcoBotSensor_async_update. rewrite Hup, Hm.
  destruct (sensors_loop_total station clock (pollutants station) 0%nat [])
    as [rs Hrs].
  { intros j q Hj. apply sensor_of_derivable, Hall.
    by eapply list_elem_of_lookup_2. }
  rewrite (get_sensor_unknown_kind after (station_id m) (sensor_type m) clock
             station rs); [done| |done|done].
  rewrite Hst. by apply filter_id_last.
Qed.

(** *** Setting the platform up *)

Lemma sensors_Forall2 (self : Station) (clock : nat → Z) :
  (∀ p, p ∈ pollutants self → derivable p) →
  ∃ rs, sensors self clock = Ok rs
    ∧ Forall2 (λ p r, value p = Some (state r) ∧ sensor_type r = pol p
                      ∧ station_id r = id self) (pollutants self) rs.
Proof.
  intros Hall.
  destruct (sensors_loop_total self clock (pollutants self) 0%nat []) as [rs Hrs].
  { intros j p Hj. apply sensor_of_derivable, Hall.
    by eapply list_elem_of_lookup_2. }
  exists rs. split; [done|].
  apply sensors_loop_inv in Hrs as (rs' & -> & Hlen & Hrs'). simpl.
  apply Forall2_same_length_lookup. split; [done|].
  intros j p r Hp Hr. destruct (Hrs' j p Hp) as (r' & Hr' & Hs).
  assert (r' = r) as -> by congruence.
  apply sensor_of_inv in Hs as (t & v & _ & _ & Hv & Hst & Hty & Hid & _).
  by rewrite Hv, Hst.
Qed.

Lemma sensors_underivable_raises (self : Station) (clock : nat → Z)
    (p : Pollutant) :
  p ∈ pollutants self → ¬ derivable p → ∃ e, sensors self clock = Raise e.
Proof.
  intros Hin Hp. apply sensors_loop_raise with p; [done|].
  intros now. eexists. by apply sensor_of_underivable.
Qed.

Lemma setup_loop_Ok (selected : list Station) :
  ∀ (clock : nat → Z) (i : nat) (acc : list SaveEcoBotSensor),
    (∀ st p, st ∈ selected → p ∈ pollutants st → derivable p) →
    ∃ entities,
      setup_loop selected clock i acc = Ok (acc ++ entities)
      ∧ Forall2 (λ sp e, ∃ m, _model e = Some m ∧ _name e = name m
                              ∧ station_id m = id sp.1
                              ∧ sensor_type m = pol sp.2
                              ∧ value sp.2 = Some (state m))
          (selected ≫= λ st, (λ p, (st, p)) <$> pollutants st) entities.
Proof.
  induction selected as [|st selected IH]; intros clock i acc Hall; simpl.
  - exists []. by rewrite app_nil_r.
  - destruct (sensors_Forall2 st (λ n, clock (i + n)%nat)) as (rs & -> & Hrs).
    { intros p Hp. apply (Hall st p); [left|done]. }
    simpl.
    destruct (IH clock (i + length rs)%nat (acc ++ (SaveEcoBotSensor_init <$> rs)))
      as (entities & -> & Hents).
    { intros st' p Hst' Hp. apply (Hall st' p); [by right|done]. }
    exists ((SaveEcoBotSensor_init <$> rs) ++ entities).
    split; [by rewrite <- app_assoc|].
    apply Forall2_app; [|done].
    apply Forall2_fmap. eapply Forall2_impl; [exact Hrs|].
    intros p r (Hv & Hty & Hid). by exists r.
Qed.

Lemma setup_loop_raise (selected : list Station) (st : Station) (p : Pollutant) :
  st ∈ selected → p ∈ pollutants st → ¬ derivable p →
  ∀ (clock : nat → Z) (i : nat) (acc : list SaveEcoBotSensor),
    ∃ e, setup_loop selected clock i acc = Raise e
      ∧ (e = TypeError ∨ e = ValidationError).
Proof.
  intros Hst Hp Hnd.
  induction selected as [|st' selected IH]; intros clock i acc; simpl.
  - by apply elem_of_nil in Hst.
  - destruct (sensors st' (λ n, clock (i + n)%nat)) as [rs|e] eqn:Hrs; simpl;
      [|exists e; split; [done|by eapply sensors_raises]].
    apply elem_of_cons in Hst as [<- | Hst]; [|by apply IH].
    destruct (sensors_underivable_raises st (λ n, clock (i + n)%nat) p Hp Hnd).
    congruence.
Qed.

(** X19. Setting the platform up always makes one request, even though the
    registry was constructed just before. When the request fails to connect
    or times out, the set-up raises [PlatformNotReady]; when the response has
    a status other than 200, the set-up completes and adds no entity. *)
Theorem setup_without_feed
    (station_ids city_names station_names : option (list string))
    (construction now_start now_end : Z) (clock : nat → Z) :
  (∀ e, e = ClientConnectorError ∨ e = TimeoutError →
     async_setup_platform station_ids city_names station_names construction
       now_start (Failed e) now_end clock
     = (Fail (PlatformNotReady e), StationsClient_init construction,
        [Log INFO; ApiCall; Log ERROR]))
  ∧ (∀ status body, status ≠ 200 →
       async_setup_platform station_ids city_names station_names construction
         now_start (Response status body) now_end clock
       = (Done [], StationsClient_init construction,
          [Log INFO; ApiCall; Log ERROR; Log DEBUG]))
  ∧ api_calls [Log INFO; ApiCall; Log ERROR] = 1%nat
  ∧ api_calls [Log INFO; ApiCall; Log ERROR; Log DEBUG] = 1%nat.
Proof.
  split_and!; [| |done..].
  - intros e He. unfold async_setup_platform, update. cbv zeta.
    rewrite andb_false_r. by destruct He as [-> | ->].
  - intros status body Hs. unfold async_setup_platform, update. cbv zeta.
    rewrite andb_false_r, bool_decide_eq_true_2 by done. simpl.
    by rewrite filter_stations_filter.
Qed.

(** X20. When the feed is fetched with status 200, none of its records
    makes the construction of its station raise anything else than
    [ValidationError], and every pollutant of the stations that the
    configured criteria select is derivable, the
    set-up adds one entity per pollutant of the selected stations, station
    after station in the order of the feed and pollutant after pollutant in
    the order of the station; each entity carries the record of its
    pollutant. Stations that are not selected play no part. *)
Theorem setup_adds_one_entity_per_pollutant
    (station_ids city_names station_names : option (list string))
    (construction now_start now_end : Z) (clock : nat → Z)
    (records : list (list (string * json))) :
  (∀ st p,
     st ∈ filter_stations
            {| stations := valid_stations records; updated_at := now_end |}
            station_ids city_names station_names →
     p ∈ pollutants st → derivable p) →
  Forall no_stray_exception records →
  ∃ entities trace,
    async_setup_platform station_ids city_names station_names construction
      now_start (Response 200 (Ok (JArr (JObj <$> records)))) now_end clock
    = (Done entities,
       {| stations := valid_stations records; updated_at := now_end |}, trace)
    ∧ api_calls trace = 1%nat
    ∧ Forall2 (λ sp e, ∃ m, _model e = Some m ∧ _name e = name m
                            ∧ station_id m = id sp.1
                            ∧ sensor_type m = pol sp.2
                            ∧ value sp.2 = Some (state m))
        (filter_stations
           {| stations := valid_stations records; updated_at := now_end |}
           station_ids city_names station_names
         ≫= λ st, (λ p, (st, p)) <$> pollutants st)
        entities.
Proof.
  intros Hall Hquiet. unfold async_setup_platform. cbv zeta.
  destruct (update_200_records (StationsClient_init construction) true
              now_start records now_end) as (trace & -> & Hcalls);
    [by left|done|].
  destruct (setup_loop_Ok _ clock 0%nat [] Hall) as (entities & -> & Hents).
  exists entities, (trace ++ [Log DEBUG]). split_and!; [done| |done].
  by rewrite api_calls_app, Hcalls.
Qed.

(** X21. When the feed is fetched with status 200 and none of its records
    makes the construction of its station raise anything else than
    [ValidationError], one pollutant without a value or without a naive
    timestamp, in one of the selected stations, makes the whole set-up raise
    [TypeError] or [ValidationError]: no entity is added, not even for the
    other stations. *)
Theorem setup_raises_on_underivable_pollutant
    (station_ids city_names station_names : option (list string))
    (construction now_start now_end : Z) (clock : nat → Z)
    (records : list (list (string * json))) (st : Station) (p : Pollutant) :
  st ∈ filter_stations
         {| stations := valid_stations records; updated_at := now_end |}
         station_ids city_names station_names →
  p ∈ pollutants st →
  ¬ derivable p →
  Forall no_stray_exception records →
  ∃ e trace,
    async_setup_platform station_ids city_names station_names construction
      now_start (Response 200 (Ok (JArr (JObj <$> records)))) now_end clock
    = (Fail (Core e),
       {| stations := valid_stations records; updated_at := now_end |}, trace)
    ∧ (e = TypeError ∨ e = ValidationError).
Proof.
  intros Hst Hp Hnd Hquiet. unfold async_setup_platform. cbv zeta.
  destruct (update_200_records (StationsClient_init construction) true
              now_start records now_end) as (trace & -> & Hcalls);
    [by left|done|].
  destruct (setup_loop_raise _ st p Hst Hp Hnd clock 0%nat []) as (e & -> & He).
  by exists e, trace.
Qed.

End Properties.

(** ** The properties on the sample data *)

#[local] Existing Instance sample_host.

(** C2, counterexample. A station whose only pollutant has a timestamp and
    no value: [sensors] does not return a record with a null state, it
    raises [ValidationError]. *)
Lemma sensors_null_value_raises :
  pollutants (sample_station [sample_no_value]) = [sample_no_value]
  ∧ value sample_no_value = None
  ∧ sensors (sample_station [sample_no_value]) sample_clock = Raise ValidationError
  ∧ ¬ ∃ rs, sensors (sample_station [sample_no_value]) sample_clock = Ok rs.
Proof. split_and!; [done..|]. by intros [rs Hrs]. Qed.

Lemma sensors_one_record_per_pollutant_witness :
  (∀ p, p ∈ pollutants (sample_station [sample_pm25; sample_temperature]) →
     ∃ t v, time p = Some t ∧ tzinfo t = None ∧ value p = Some v)
  ∧ ∃ rs, sensors (sample_station [sample_pm25; sample_temperature]) sample_clock
            = Ok rs
      ∧ length rs = 2%nat
      ∧ Forall2 (λ p r, value p = Some (state r) ∧ sensor_type r = pol p
                        ∧ station_id r = "SAVEDNIPRO_001")
          [sample_pm25; sample_temperature] rs.
Proof.
  assert (Hall : ∀ p, p ∈ [sample_pm25; sample_temperature] →
            ∃ t v, time p = Some t ∧ tzinfo t = None ∧ value p = Some v).
  { intros p [-> | [-> | []%elem_of_nil]%elem_of_cons]%elem_of_cons;
      eexists _, _; split_and!; reflexivity. }
  split; [exact Hall|].
  exact (sensors_one_record_per_pollutant
           (sample_station [sample_pm25; sample_temperature]) sample_clock Hall).
Defined.

(** C6, counterexample. A feed record whose pollutant has a value and the
    timestamp 1609459200, a number of seconds: it validates, the timestamp of
    its pollutant is not null, it is aware, and 13 hours later [sensors]
    derives no record from it, deprecated or not: it raises [TypeError]. *)
Lemma sensors_aware_timestamp_raises :
  Station_init sample_aware_record = Ok (sample_station [sample_aware])
  ∧ time sample_aware = Some {| wall := sample_time; tzinfo := Some 0 |}
  ∧ value sample_aware = Some 7%float
  ∧ (sample_time + timedelta_hours 13) - sample_time > timedelta_hours 12
  ∧ sensors (sample_station [sample_aware])
      (λ _, sample_time + timedelta_hours 13) = Raise TypeError
  ∧ ¬ ∃ rs, sensors (sample_station [sample_aware])
              (λ _, sample_time + timedelta_hours 13) = Ok rs.
Proof. split_and!; [done..|]. by intros [rs Hrs]. Qed.

Lemma deprecated_iff_older_than_12_hours_witness :
  (∀ p, p ∈ pollutants (sample_station [sample_pm25; sample_temperature]) →
     derivable p)
  ∧ ∃ r0 r1,
      sensors (sample_station [sample_pm25; sample_temperature]) sample_clock
        = Ok [r0; r1]
      ∧ sample_clock 0 - sample_time = timedelta_hours 12
      ∧ deprecated r0 = false
      ∧ sample_clock 1 - sample_time > timedelta_hours 12
      ∧ deprecated r1 = true.
Proof.
  assert (Hall : ∀ p,
            p ∈ pollutants (sample_station [sample_pm25; sample_temperature]) →
            derivable p).
  { intros p [-> | [-> | []%elem_of_nil]%elem_of_cons]%elem_of_cons;
      eexists _, _; split_and!; reflexivity. }
  split; [exact Hall|].
  destruct (deprecated_iff_older_than_12_hours
              (sample_station [sample_pm25; sample_temperature]) sample_clock
              Hall) as (rs & Hrs & Hlen & Hflag).
  destruct (Hflag 0%nat sample_pm25 (naive sample_time) eq_refl eq_refl)
    as (r0 & Hr0 & _ & Hexact).
  destruct (Hflag 1%nat sample_temperature (naive sample_time) eq_refl eq_refl)
    as (r1 & Hr1 & Holder & _).
  exists r0, r1. split.
  - rewrite Hrs. f_equal.
    destruct rs as [|r0' [|r1' [|r2' rs]]]; try discriminate Hlen.
    by simplify_eq/=.
  - split; [reflexivity|]. split; [by apply Hexact|].
    split; [reflexivity|]. by apply Holder.
Defined.

Lemma null_timestamp_accepted_then_sensors_raises_witness :
  (dict_get "time" sample_pollutant_entry = Some JNull
   ∧ Pollutant_init sample_pollutant_entry
     = Valid {| pol := PM2_5; unit := "mg/m3"; time := None;
                value := Some 0.5%float; averaging := "1h" |})
  ∧ (sample_no_time ∈ pollutants (sample_station [sample_pm25; sample_no_time])
     ∧ time sample_no_time = None
     ∧ datetime_strftime (time sample_no_time) = Raise TypeError
     ∧ (∀ now, sensor_of (sample_station [sample_pm25; sample_no_time]) now
                 sample_no_time = Raise TypeError)
     ∧ ∃ e, sensors (sample_station [sample_pm25; sample_no_time]) sample_clock
            = Raise e).
Proof.
  destruct (null_timestamp_accepted_then_sensors_raises (host := sample_host))
    as [Hparse Hraise].
  split.
  - split; [reflexivity|].
    rewrite (Hparse sample_pollutant_entry) by (right; reflexivity).
    reflexivity.
  - assert (Hin : sample_no_time
                  ∈ pollutants (sample_station [sample_pm25; sample_no_time])).
    { simpl. apply elem_of_cons. right. apply elem_of_cons. by left. }
    split; [exact Hin|]. split; [reflexivity|].
    exact (Hraise (sample_station [sample_pm25; sample_no_time]) sample_clock
             sample_no_time Hin eq_refl).
Defined.

Lemma update_non_2xx_keeps_registry_witness :
  (true = true ∨ timedelta_seconds 30 ≤ sample_time - updated_at sample_client)
  ∧ ¬ is_2xx 503
  ∧ ∃ trace,
      update sample_client true sample_time (Response 503 (Raise JSONDecodeError))
        (sample_time + 1)
        = (Ok false, sample_client, trace)
      ∧ api_calls trace = 1%nat.
Proof.
  assert (Hreq : true = true
                 ∨ timedelta_seconds 30 ≤ sample_time - updated_at sample_client)
    by (left; reflexivity).
  assert (Hstatus : ¬ is_2xx 503) by (unfold is_2xx; lia).
  split; [exact Hreq|]. split; [exact Hstatus|].
  exact (update_non_2xx_keeps_registry sample_client true sample_time 503
           (Raise JSONDecodeError) (sample_time + 1) Hreq Hstatus).
Defined.

(** C4, counterexample. A response of the 2xx class whose status is 201,
    with a body of records that validate: [update] returns [False] and keeps
    the former stations, which are not those of the feed. *)
Lemma update_201_is_refused :
  is_2xx 201
  ∧ update sample_client true sample_time
      (Response 201 (Ok (JArr (JObj <$> sample_feed)))) (sample_time + 1)
    = (Ok false, sample_client, [Log INFO; ApiCall; Log ERROR])
  ∧ valid_stations sample_feed ≠ stations sample_client
  ∧ length (valid_stations sample_feed) = 2%nat.
Proof. split_and!; [unfold is_2xx; lia|done|done|done]. Qed.

Ltac quiet_records :=
  repeat constructor; intros e He; vm_compute in He; by simplify_eq.

Lemma sample_feed_quiet : Forall no_stray_exception sample_feed.
Proof. quiet_records. Qed.

Lemma update_200_replaces_stations_witness :
  (false = true
   ∨ timedelta_seconds 30 ≤ (sample_time + timedelta_seconds 30) - updated_at sample_client)
  ∧ Forall no_stray_exception sample_feed
  ∧ ∃ trace,
      update sample_client false (sample_time + timedelta_seconds 30)
        (Response 200 (Ok (JArr (JObj <$> sample_feed))))
        (sample_time + timedelta_seconds 31)
        = (Ok true,
           {| stations := valid_stations sample_feed;
              updated_at := sample_time + timedelta_seconds 31 |},
           trace)
      ∧ api_calls trace = 1%nat
      ∧ (∀ st, st ∈ valid_stations sample_feed
               ↔ ∃ fields, fields ∈ sample_feed ∧ Station_init fields = Ok st)
      ∧ (∀ before fields after, sample_feed = before ++ fields :: after →
           Station_init fields = Raise ValidationError →
           valid_stations sample_feed
             = valid_stations before ++ valid_stations after).
Proof.
  assert (Hreq : false = true
                 ∨ timedelta_seconds 30
                   ≤ (sample_time + timedelta_seconds 30) - updated_at sample_client).
  { right. simpl. unfold timedelta_seconds. lia. }
  split; [exact Hreq|]. split; [exact sample_feed_quiet|].
  exact (update_200_replaces_stations sample_client false
           (sample_time + timedelta_seconds 30) sample_feed
           (sample_time + timedelta_seconds 31) Hreq sample_feed_quiet).
Defined.

(** C5, counterexample. Two [update(force=False)] calls, one and two seconds
    after the registry was constructed, hence within 30 seconds of each
    other: neither makes a request, so they make none, not one. *)
Lemma two_cached_updates_make_no_request :
  update (StationsClient_init sample_time) false
      (sample_time + timedelta_seconds 1) (Failed TimeoutError)
      (sample_time + timedelta_seconds 1)
    = (Ok true, StationsClient_init sample_time, [Log DEBUG])
  ∧ update (StationsClient_init sample_time) false
      (sample_time + timedelta_seconds 2) (Failed TimeoutError)
      (sample_time + timedelta_seconds 2)
    = (Ok true, StationsClient_init sample_time, [Log DEBUG])
  ∧ api_calls ([Log DEBUG] ++ [Log DEBUG]) = 0%nat
  ∧ api_calls ([Log DEBUG] ++ [Log DEBUG]) ≠ 1%nat.
Proof. by split_and!. Qed.

Lemma update_within_30_seconds_uses_cache_witness :
  (sample_time + timedelta_seconds 29 - updated_at sample_client
     < timedelta_seconds 30
   ∧ update sample_client false (sample_time + timedelta_seconds 29)
       (Failed TimeoutError) (sample_time + timedelta_seconds 29)
     = (Ok true, sample_client, [Log DEBUG])
   ∧ api_calls [Log DEBUG] = 0%nat)
  ∧ (timedelta_seconds 30
       ≤ sample_time + timedelta_seconds 30 - updated_at sample_client
     ∧ Forall no_stray_exception sample_feed
     ∧ sample_time + timedelta_seconds 60 - (sample_time + timedelta_seconds 31)
       < timedelta_seconds 30
     ∧ ∃ fetched trace1,
         update sample_client false (sample_time + timedelta_seconds 30)
           (Response 200 (Ok (JArr (JObj <$> sample_feed))))
           (sample_time + timedelta_seconds 31)
           = (Ok true, fetched, trace1)
         ∧ api_calls trace1 = 1%nat
         ∧ update fetched false (sample_time + timedelta_seconds 60)
             (Failed TimeoutError) (sample_time + timedelta_seconds 60)
           = (Ok true, fetched, [Log DEBUG])
         ∧ api_calls (trace1 ++ [Log DEBUG]) = 1%nat).
Proof.
  destruct (update_within_30_seconds_uses_cache (host := sample_host))
    as (Hcache & Htwice & Hfirst).
  assert (H1 : sample_time + timedelta_seconds 29 - updated_at sample_client
               < timedelta_seconds 30) by reflexivity.
  assert (H2 : timedelta_seconds 30
               ≤ sample_time + timedelta_seconds 30 - updated_at sample_client).
  { simpl. unfold timedelta_seconds. lia. }
  assert (H3 : sample_time + timedelta_seconds 60
                 - (sample_time + timedelta_seconds 31)
               < timedelta_seconds 30) by reflexivity.
  split.
  - split; [exact H1|].
    exact (Hcache sample_client _ (Failed TimeoutError) _ H1).
  - split; [exact H2|]. split; [exact sample_feed_quiet|]. split; [exact H3|].
    destruct (Hfirst sample_client sample_feed
                (sample_time + timedelta_seconds 30)
                (sample_time + timedelta_seconds 31) H2 sample_feed_quiet)
      as (fetched & trace1 & Hup & Hcalls).
    exists fetched, trace1. split; [exact Hup|]. split; [exact Hcalls|].
    exact (Htwice sample_client fetched _ (Failed TimeoutError) _ _
             (sample_time + timedelta_seconds 60)
             (sample_time + timedelta_seconds 60) trace1 Hup Hcalls H3).
Defined.

Lemma fresh_registry_is_empty_and_cached_witness :
  sample_time + timedelta_seconds 29 - sample_time < timedelta_seconds 30
  ∧ stations (StationsClient_init sample_time) = []
  ∧ updated_at (StationsClient_init sample_time) = sample_time
  ∧ ∃ after trace,
      update (StationsClient_init sample_time) false
        (sample_time + timedelta_seconds 29) (Failed ClientConnectorError)
        (sample_time + timedelta_seconds 29)
        = (Ok true, after, trace)
      ∧ api_calls trace = 0%nat
      ∧ after = StationsClient_init sample_time
      ∧ cities after = []
      ∧ (∀ city, city_stations after city = [])
      ∧ (∀ station_ids city_names station_names,
           filter_stations after station_ids city_names station_names = []).
Proof.
  assert (Hsoon : sample_time + timedelta_seconds 29 - sample_time
                  < timedelta_seconds 30) by reflexivity.
  split; [exact Hsoon|].
  exact (fresh_registry_is_empty_and_cached sample_time
           (sample_time + timedelta_seconds 29) (Failed ClientConnectorError)
           (sample_time + timedelta_seconds 29) Hsoon).
Defined.

Lemma get_sensor_missing_station_raises_witness :
  (∀ s, s ∈ stations sample_client → id s ≠ "station-1")
  ∧ get_sensor sample_client "station-1" PM2_5 sample_clock = Raise IndexError
  ∧ last (filter (λ s, id s ∈ ["SAVEDNIPRO_001"]) (stations sample_client))
    = Some (sample_station [sample_pm25; sample_temperature])
  ∧ (∀ p, p ∈ [sample_pm25; sample_temperature] → pol p ≠ AQI)
  ∧ get_sensor sample_client "SAVEDNIPRO_001" AQI sample_clock = Ok None.
Proof.
  destruct (get_sensor_missing_station_raises (host := sample_host))
    as (_ & Hstation & Hkind).
  assert (Hnone : ∀ s, s ∈ stations sample_client → id s ≠ "station-1").
  { intros s [-> | []%elem_of_nil]%elem_of_cons. discriminate. }
  assert (Hpol : ∀ p, p ∈ [sample_pm25; sample_temperature] → pol p ≠ AQI).
  { intros p [-> | [-> | []%elem_of_nil]%elem_of_cons]%elem_of_cons;
      discriminate. }
  split; [exact Hnone|].
  split; [exact (Hstation sample_client "station-1" PM2_5 sample_clock Hnone)|].
  split; [reflexivity|]. split; [exact Hpol|].
  eapply (Hkind sample_client "SAVEDNIPRO_001" AQI sample_clock
            (sample_station [sample_pm25; sample_temperature]));
    [reflexivity | reflexivity | exact Hpol].
Defined.

Lemma city_stations_of_city_witness :
  (∀ s, s ∈ stations sample_client → cityName s ≠ "Nowhere")
  ∧ city_stations sample_client "Nowhere" = []
  ∧ city_stations sample_client "Kyiv" = [("SAVEDNIPRO_001", "Main St, 1")].
Proof.
  assert (Hnone : ∀ s, s ∈ stations sample_client → cityName s ≠ "Nowhere").
  { intros s [-> | []%elem_of_nil]%elem_of_cons. discriminate. }
  split; [exact Hnone|]. split.
  - exact (proj2 (city_stations_of_city sample_client "Nowhere") Hnone).
  - rewrite (proj1 (city_stations_of_city sample_client "Kyiv")). reflexivity.
Defined.

Ltac in_sample_list :=
  repeat (apply elem_of_cons; first [left; reflexivity | right]).

Ltac each_of_sample_list H :=
  repeat (apply elem_of_cons in H as [-> | H]); [..|by apply elem_of_nil in H].

Lemma sample_pollutants_derivable (p : Pollutant) :
  p ∈ [sample_pm25; sample_temperature; sample_pm25_later] → derivable p.
Proof.
  intros Hp. each_of_sample_list Hp; eexists _, _; split_and!; reflexivity.
Defined.

Lemma sample_no_time_underivable : ¬ derivable sample_no_time.
Proof. intros (t & v & Ht & _). discriminate Ht. Defined.

Lemma sensors_returns_iff_all_derivable_witness :
  (∃ rs, sensors (sample_station [sample_pm25; sample_temperature]) sample_clock
         = Ok rs)
  ∧ ¬ derivable sample_no_time
  ∧ sensors (sample_station [sample_pm25; sample_no_time; sample_no_value])
      sample_clock = Raise TypeError
  ∧ sensors (sample_station [sample_pm25; sample_no_value; sample_no_time])
      sample_clock = Raise ValidationError.
Proof.
  split.
  - apply (proj1 (sensors_returns_iff_all_derivable
                    (sample_station [sample_pm25; sample_temperature])
                    sample_clock)).
    intros p Hp. apply sample_pollutants_derivable. simpl in Hp.
    each_of_sample_list Hp; in_sample_list.
  - split; [exact sample_no_time_underivable|]. split.
    + refine (proj1 (proj2 (sensors_returns_iff_all_derivable
                (sample_station [sample_pm25; sample_no_time; sample_no_value])
                sample_clock) [sample_pm25] sample_no_time [sample_no_value]
                eq_refl _ sample_no_time_underivable)).
      intros q Hq. apply sample_pollutants_derivable.
      each_of_sample_list Hq; in_sample_list.
    + refine (proj1 (proj2 (sensors_returns_iff_all_derivable
                (sample_station [sample_pm25; sample_no_value; sample_no_time])
                sample_clock) [sample_pm25] sample_no_value [sample_no_time]
                eq_refl _ _)).
      * intros q Hq. apply sample_pollutants_derivable.
        each_of_sample_list Hq; in_sample_list.
      * intros (t & v & _ & _ & Hv). discriminate Hv.
Defined.

Lemma get_sensor_last_station_last_pollutant_witness :
  stations sample_client_twice
    = [sample_station [sample_temperature]; sample_station_in "Lviv"]
      ++ sample_station [sample_pm25; sample_temperature; sample_pm25_later] :: []
  ∧ ∃ r, get_sensor sample_client_twice "SAVEDNIPRO_001" PM2_5 sample_clock
         = Ok (Some r)
      ∧ sensor_of (sample_station
                     [sample_pm25; sample_temperature; sample_pm25_later])
          (sample_clock 2) sample_pm25_later = Ok r
      ∧ value sample_pm25_later = Some (state r)
      ∧ sensor_type r = PM2_5
      ∧ station_id r = "SAVEDNIPRO_001".
Proof.
  split; [reflexivity|].
  refine (get_sensor_last_station_last_pollutant sample_client_twice
            "SAVEDNIPRO_001" PM2_5 sample_clock
            [sample_station [sample_temperature]; sample_station_in "Lviv"] []
            (sample_station [sample_pm25; sample_temperature; sample_pm25_later])
            [sample_pm25; sample_temperature] [] sample_pm25_later
            eq_refl eq_refl _ _ eq_refl eq_refl _).
  - intros s Hs. by apply elem_of_nil in Hs.
  - exact sample_pollutants_derivable.
  - intros q Hq. by apply elem_of_nil in Hq.
Defined.

Lemma get_sensor_raises_on_underivable_pollutant_witness :
  stations sample_client_no_time
    = [] ++ sample_station [sample_pm25; sample_no_time] :: []
  ∧ sample_no_time ∈ pollutants (sample_station [sample_pm25; sample_no_time])
  ∧ ¬ derivable sample_no_time
  ∧ ∃ e, get_sensor sample_client_no_time "SAVEDNIPRO_001" PM2_5 sample_clock
         = Raise e
      ∧ (e = TypeError ∨ e = ValidationError).
Proof.
  assert (Hin : sample_no_time
                ∈ pollutants (sample_station [sample_pm25; sample_no_time]))
    by (simpl; in_sample_list).
  split; [reflexivity|]. split; [exact Hin|].
  split; [exact sample_no_time_underivable|].
  refine (get_sensor_raises_on_underivable_pollutant sample_client_no_time
            "SAVEDNIPRO_001" PM2_5 sample_clock [] []
            (sample_station [sample_pm25; sample_no_time]) sample_no_time
            eq_refl eq_refl _ Hin sample_no_time_underivable).
  intros s Hs. by apply elem_of_nil in Hs.
Defined.

Lemma update_one_request_and_guarded_changes_witness :
  update sample_client true sample_time (Response 200 (Ok (JArr (JObj <$> sample_feed))))
    (sample_time + 1)
  = (Ok true,
     {| stations := valid_stations sample_feed; updated_at := sample_time + 1 |},
     [Log INFO; ApiCall; Log ERROR; Log DEBUG])
  ∧ api_calls [Log INFO; ApiCall; Log ERROR; Log DEBUG]
    = (if served_from_cache sample_client true sample_time then 0 else 1)%nat
  ∧ served_from_cache sample_client true sample_time = false.
Proof.
  assert (Hup : update sample_client true sample_time
                  (Response 200 (Ok (JArr (JObj <$> sample_feed))))
                  (sample_time + 1)
                = (Ok true,
                   {| stations := valid_stations sample_feed;
                      updated_at := sample_time + 1 |},
                   [Log INFO; ApiCall; Log ERROR; Log DEBUG])) by reflexivity.
  split; [exact Hup|]. split; [|reflexivity].
  exact (proj1 (update_one_request_and_guarded_changes _ _ _ _ _ _ _ _ Hup)).
Defined.

Lemma update_failure_does_not_debounce_witness :
  timedelta_seconds 30 ≤ sample_time + timedelta_seconds 30 - updated_at sample_client
  ∧ sample_time + timedelta_seconds 30 ≤ sample_time + timedelta_seconds 31
  ∧ ∃ r1 trace1 r2 after2 trace2,
      update sample_client false (sample_time + timedelta_seconds 30)
        (Failed TimeoutError) (sample_time + timedelta_seconds 30)
        = (r1, sample_client, trace1)
      ∧ r1 ≠ Ok true
      ∧ api_calls trace1 = 1%nat
      ∧ update sample_client false (sample_time + timedelta_seconds 31)
          (Response 503 (Raise JSONDecodeError)) (sample_time + timedelta_seconds 31)
        = (r2, after2, trace2)
      ∧ api_calls trace2 = 1%nat.
Proof.
  assert (H1 : timedelta_seconds 30
               ≤ sample_time + timedelta_seconds 30 - updated_at sample_client).
  { simpl. unfold timedelta_seconds. lia. }
  assert (H2 : sample_time + timedelta_seconds 30
               ≤ sample_time + timedelta_seconds 31).
  { unfold timedelta_seconds. lia. }
  split; [exact H1|]. split; [exact H2|].
  refine (update_failure_does_not_debounce sample_client _ _ _ _
            (Failed TimeoutError) (Response 503 (Raise JSONDecodeError)) H1 H2 _).
  intros body Hbody. discriminate Hbody.
Defined.

Lemma update_200_malformed_body_loses_stations_witness :
  (true = true ∨ timedelta_seconds 30 ≤ sample_time - updated_at sample_client)
  ∧ update sample_client true sample_time (Response 200 (Ok JNull)) sample_time
    = (Raise TypeError, {| stations := []; updated_at := sample_time |},
       [Log INFO; ApiCall])
  ∧ (∃ trace,
       update sample_client true sample_time
         (Response 200 (Ok (JArr ((JObj <$> sample_feed)
                                  ++ JInt 3 :: [JObj (sample_record "C")]))))
         sample_time
       = (Raise TypeError,
          {| stations := valid_stations sample_feed; updated_at := sample_time |},
          trace)
       ∧ api_calls trace = 1%nat)
  ∧ Station_init sample_overflow_record = Raise OverflowError
  ∧ ∃ trace,
      update sample_client true sample_time
        (Response 200 (Ok (JArr ((JObj <$> sample_feed)
                                 ++ JObj sample_overflow_record
                                    :: [JObj (sample_record "C")]))))
        sample_time
      = (Raise OverflowError,
         {| stations := valid_stations sample_feed; updated_at := sample_time |},
         trace)
      ∧ api_calls trace = 1%nat.
Proof.
  assert (Hreq : true = true
                 ∨ timedelta_seconds 30 ≤ sample_time - updated_at sample_client)
    by (left; reflexivity).
  assert (Hover : Station_init sample_overflow_record = Raise OverflowError)
    by (vm_compute; reflexivity).
  destruct (update_200_malformed_body_loses_stations (host := sample_host)
              sample_client true sample_time sample_time Hreq)
    as (Hscalar & Hentry & Hescape).
  split; [exact Hreq|]. split; [|split; [|split; [exact Hover|]]].
  - apply Hscalar. by left.
  - apply (Hentry sample_feed (JInt 3) [JObj (sample_record "C")]);
      [exact sample_feed_quiet|].
    intros fields Hf. discriminate Hf.
  - apply (Hescape sample_feed sample_overflow_record [JObj (sample_record "C")]
             OverflowError); [exact sample_feed_quiet|exact Hover|].
    intros He. discriminate He.
Defined.

Lemma unknown_kind_rejects_station_witness :
  dict_get "pollutants" sample_ozone_record
    = Some (JArr [ JObj [ ("pol", JStr "Ozone"); ("unit", JStr "mg/m3");
                          ("value", JFloat 7%float); ("averaging", JStr "1h") ] ])
  ∧ no_stray_exception sample_ozone_record
  ∧ Station_init sample_ozone_record = Raise ValidationError.
Proof.
  assert (Hquiet : no_stray_exception sample_ozone_record).
  { intros e He. vm_compute in He. by simplify_eq. }
  split; [reflexivity|]. split; [exact Hquiet|].
  destruct (unknown_kind_rejects_station sample_ozone_record
              [ JObj [ ("pol", JStr "Ozone"); ("unit", JStr "mg/m3");
                       ("value", JFloat 7%float); ("averaging", JStr "1h") ] ]
              [ ("pol", JStr "Ozone"); ("unit", JStr "mg/m3");
                ("value", JFloat 7%float); ("averaging", JStr "1h") ]
              eq_refl) as (e & Hraise & He).
  - left.
  - intros k Hk. by destruct k.
  - rewrite Hraise. f_equal. exact (He Hquiet).
Defined.

Lemma Station_init_required_and_extra_keys_witness :
  dict_get "latitude" sample_bad_record = None
  ∧ no_stray_exception sample_bad_record
  ∧ Station_init sample_bad_record = Raise ValidationError
  ∧ Station_init (("elevation", JInt 12) :: sample_record "A")
    = Station_init (sample_record "A")
  ∧ Station_init ((BaseModel_self, JInt 12) :: sample_record "A")
    = Raise TypeError
  ∧ ∃ st, Station_init (sample_record "A") = Ok st.
Proof.
  assert (Hquiet : no_stray_exception sample_bad_record).
  { intros e He. vm_compute in He. by simplify_eq. }
  split; [reflexivity|]. split; [exact Hquiet|].
  split; [|split; [|split; [|by eexists]]].
  - destruct (proj1 (Station_init_required_and_extra_keys sample_bad_record)
                "latitude") as (e & Hraise & He);
      [unfold Station_fields; in_sample_list|by left|].
    rewrite Hraise. f_equal. exact (He Hquiet).
  - apply (proj1 (proj2 (Station_init_required_and_extra_keys
                           (sample_record "A")))); [|discriminate].
    unfold Station_fields. intros Hin.
    repeat (apply elem_of_cons in Hin as [Heq | Hin]; [discriminate Heq|]).
    by apply elem_of_nil in Hin.
  - apply (proj2 (proj2 (Station_init_required_and_extra_keys
                           (sample_record "A")))).
Defined.

Lemma entity_of_derived_record_witness :
  ∃ rs r,
    sensors (sample_station [sample_pm25; sample_temperature]) sample_clock = Ok rs
    ∧ rs !! 1%nat = Some r
    ∧ SaveEcoBotSensor_name (SaveEcoBotSensor_init r)
      = "TEMPERATURE (Kyiv, Main St, 1)"
    ∧ SaveEcoBotSensor_unit_of_measurement (SaveEcoBotSensor_init r)
      = Done (AttrStr "°C")
    ∧ ∃ t v, time sample_temperature = Some t ∧ value sample_temperature = Some v
        ∧ SaveEcoBotSensor_state (SaveEcoBotSensor_init r)
          = Done (if bool_decide (sample_clock 1 - wall t > timedelta_hours 12)
                  then StateStr "deprecated" else StateFloat v).
Proof.
  eexists _, _. split; [reflexivity|]. split; [reflexivity|].
  exact (entity_of_derived_record
           (sample_station [sample_pm25; sample_temperature]) sample_clock
           _ 1%nat sample_temperature _ eq_refl eq_refl eq_refl).
Defined.

Lemma async_update_without_model_never_recovers_witness :
  _model {| _model := None; _name := "lost" |} = None
  ∧ ∃ e, SaveEcoBotSensor_async_update {| _model := None; _name := "lost" |}
           sample_client (sample_time + timedelta_seconds 30)
           (Response 200 (Ok (JArr (JObj <$> sample_feed))))
           (sample_time + timedelta_seconds 31) sample_clock
         = (Fail e, {| _model := None; _name := "lost" |},
            {| stations := valid_stations sample_feed;
               updated_at := sample_time + timedelta_seconds 31 |},
            [Log INFO; ApiCall; Log ERROR; Log DEBUG])
      ∧ e = AttributeError.
Proof.
  split; [reflexivity|].
  destruct (async_update_without_model_never_recovers
              {| _model := None; _name := "lost" |} sample_client
              (sample_time + timedelta_seconds 30)
              (Response 200 (Ok (JArr (JObj <$> sample_feed))))
              (sample_time + timedelta_seconds 31) sample_clock eq_refl)
    as (e & Hup & He).
  exists e. split; [exact Hup|]. apply He. by eexists.
Defined.

Lemma async_update_replaces_model_witness :
  update sample_client false (sample_time + timedelta_seconds 1)
    (Failed TimeoutError) (sample_time + timedelta_seconds 1)
  = (Ok true, sample_client, [Log DEBUG])
  ∧ ∃ r, SaveEcoBotSensor_async_update
           (sample_entity "SAVEDNIPRO_001" TEMPERATURE) sample_client
           (sample_time + timedelta_seconds 1) (Failed TimeoutError)
           (sample_time + timedelta_seconds 1) sample_clock
         = (Done (), {| _model := Some r; _name := "sample" |}, sample_client,
            [Log DEBUG] ++ [Log DEBUG])
      ∧ sensor_of (sample_station [sample_pm25; sample_temperature])
          (sample_clock 1) sample_temperature = Ok r
      ∧ value sample_temperature = Some (state r).
Proof.
  split; [reflexivity|].
  refine (async_update_replaces_model
            (sample_entity "SAVEDNIPRO_001" TEMPERATURE)
            (sample_model "SAVEDNIPRO_001" TEMPERATURE)
            sample_client sample_client
            (sample_time + timedelta_seconds 1) (Failed TimeoutError)
            (sample_time + timedelta_seconds 1) sample_clock true [Log DEBUG]
            [] [] (sample_station [sample_pm25; sample_temperature])
            [sample_pm25] [] sample_temperature
            eq_refl eq_refl eq_refl eq_refl _ _ eq_refl eq_refl _).
  - intros s Hs. by apply elem_of_nil in Hs.
  - intros q Hq. apply sample_pollutants_derivable. simpl in Hq.
    each_of_sample_list Hq; in_sample_list.
  - intros q Hq. by apply elem_of_nil in Hq.
Defined.

Lemma async_update_failures_keep_model_witness :
  update sample_client false (sample_time + timedelta_seconds 1)
    (Failed TimeoutError) (sample_time + timedelta_seconds 1)
  = (Ok true, sample_client, [Log DEBUG])
  ∧ (∀ s, s ∈ stations sample_client → id s ≠ "GONE")
  ∧ SaveEcoBotSensor_async_update (sample_entity "GONE" PM2_5) sample_client
      (sample_time + timedelta_seconds 1) (Failed TimeoutError)
      (sample_time + timedelta_seconds 1) sample_clock
    = (Fail (Core IndexError), sample_entity "GONE" PM2_5, sample_client,
       [Log DEBUG])
  ∧ SaveEcoBotSensor_async_update (sample_entity "GONE" PM2_5) sample_client
      (sample_time + timedelta_seconds 30) (Failed TimeoutError)
      (sample_time + timedelta_seconds 30) sample_clock
    = (Fail (Core TimeoutError), sample_entity "GONE" PM2_5, sample_client,
       [Log INFO; ApiCall]).
Proof.
  assert (Hnone : ∀ s, s ∈ stations sample_client → id s ≠ "GONE").
  { intros s Hs. simpl in Hs. each_of_sample_list Hs. discriminate. }
  split; [reflexivity|]. split; [exact Hnone|]. split.
  - exact (proj2 (async_update_failures_keep_model (sample_entity "GONE" PM2_5)
                    (sample_model "GONE" PM2_5) sample_client sample_client
                    (sample_time + timedelta_seconds 1) (Failed TimeoutError)
                    (sample_time + timedelta_seconds 1) sample_clock
                    (Ok true) [Log DEBUG] eq_refl eq_refl)
             true eq_refl Hnone).
  - exact (proj1 (async_update_failures_keep_model (sample_entity "GONE" PM2_5)
                    (sample_model "GONE" PM2_5) sample_client sample_client
                    (sample_time + timedelta_seconds 30) (Failed TimeoutError)
                    (sample_time + timedelta_seconds 30) sample_clock
                    (Raise TimeoutError) [Log INFO; ApiCall] eq_refl eq_refl)
             TimeoutError eq_refl).
Defined.

Lemma async_update_loses_model_when_kind_is_gone_witness :
  update sample_client false (sample_time + timedelta_seconds 1)
    (Failed TimeoutError) (sample_time + timedelta_seconds 1)
  = (Ok true, sample_client, [Log DEBUG])
  ∧ (∀ q, q ∈ [sample_pm25; sample_temperature] → pol q ≠ AQI)
  ∧ SaveEcoBotSensor_async_update (sample_entity "SAVEDNIPRO_001" AQI)
      sample_client (sample_time + timedelta_seconds 1) (Failed TimeoutError)
      (sample_time + timedelta_seconds 1) sample_clock
    = (Done (), {| _model := None; _name := "sample" |}, sample_client,
       [Log DEBUG] ++ [Log ERROR])
  ∧ SaveEcoBotSensor_state {| _model := None; _name := "sample" |}
    = Fail AttributeError.
Proof.
  assert (Hkind : ∀ q, q ∈ [sample_pm25; sample_temperature] → pol q ≠ AQI).
  { intros q Hq. each_of_sample_list Hq; discriminate. }
  split; [reflexivity|]. split; [exact Hkind|].
  refine (async_update_loses_model_when_kind_is_gone
            (sample_entity "SAVEDNIPRO_001" AQI)
            (sample_model "SAVEDNIPRO_001" AQI) sample_client sample_client
            (sample_time + timedelta_seconds 1) (Failed TimeoutError)
            (sample_time + timedelta_seconds 1) sample_clock true [Log DEBUG]
            [] [] (sample_station [sample_pm25; sample_temperature])
            eq_refl eq_refl eq_refl eq_refl _ _ Hkind).
  - intros s Hs. by apply elem_of_nil in Hs.
  - intros q Hq. apply sample_pollutants_derivable. simpl in Hq.
    each_of_sample_list Hq; in_sample_list.
Defined.

Lemma setup_adds_one_entity_per_pollutant_witness :
  (∀ st p,
     st ∈ filter_stations
            {| stations := valid_stations (H := text_host) sample_timed_feed;
               updated_at := sample_time + 1 |}
            None (Some ["Odesa"]) None →
     p ∈ pollutants st → derivable p)
  ∧ Forall (no_stray_exception (H := text_host)) sample_timed_feed
  ∧ ∃ entities trace,
      async_setup_platform (H := text_host) None (Some ["Odesa"]) None
        sample_time sample_time
        (Response 200 (Ok (JArr (JObj <$> sample_timed_feed))))
        (sample_time + 1) sample_clock
      = (Done entities,
         {| stations := valid_stations (H := text_host) sample_timed_feed;
            updated_at := sample_time + 1 |}, trace)
      ∧ api_calls trace = 1%nat
      ∧ Forall2 (λ sp e, ∃ m, _model e = Some m ∧ _name e = name m
                              ∧ station_id m = id sp.1
                              ∧ sensor_type m = pol sp.2
                              ∧ value sp.2 = Some (state m))
          (filter_stations
             {| stations := valid_stations (H := text_host) sample_timed_feed;
                updated_at := sample_time + 1 |}
             None (Some ["Odesa"]) None
           ≫= λ st, (λ p, (st, p)) <$> pollutants st)
          entities.
Proof.
  assert (Hall : ∀ st p,
            st ∈ filter_stations
                   {| stations := valid_stations (H := text_host) sample_timed_feed;
                      updated_at := sample_time + 1 |}
                   None (Some ["Odesa"]) None →
            p ∈ pollutants st → derivable p).
  { intros st p Hst Hp. cbv in Hst.
    each_of_sample_list Hst; cbv in Hp; each_of_sample_list Hp;
      eexists _, _; split_and!; reflexivity. }
  assert (Hquiet : Forall (no_stray_exception (H := text_host)) sample_timed_feed)
    by quiet_records.
  split; [exact Hall|]. split; [exact Hquiet|].
  exact (setup_adds_one_entity_per_pollutant (host := text_host)
           None (Some ["Odesa"]) None sample_time sample_time (sample_time + 1)
           sample_clock sample_timed_feed Hall Hquiet).
Defined.

Lemma setup_raises_on_underivable_pollutant_witness :
  ∃ st p,
    st ∈ filter_stations
           {| stations := valid_stations sample_feed;
              updated_at := sample_time + 1 |} None None None
    ∧ p ∈ pollutants st
    ∧ ¬ derivable p
    ∧ Forall no_stray_exception sample_feed
    ∧ ∃ e trace,
        async_setup_platform None None None sample_time sample_time
          (Response 200 (Ok (JArr (JObj <$> sample_feed))))
          (sample_time + 1) sample_clock
        = (Fail (Core e),
           {| stations := valid_stations sample_feed;
              updated_at := sample_time + 1 |}, trace)
        ∧ (e = TypeError ∨ e = ValidationError).
Proof.
  assert (Hst : {| id := "A"; cityName := "Odesa"; stationName := "Port";
                   localName := "Port"; timezone := "+0200";
                   latitude := 46.5%float; longitude := 30.75%float;
                   pollutants :=
                     [ {| pol := PM2_5; unit := "mg/m3"; time := None;
                          value := Some 0.5%float; averaging := "1h" |} ] |}
                ∈ filter_stations
                    {| stations := valid_stations sample_feed;
                       updated_at := sample_time + 1 |} None None None)
    by (cbv; left).
  assert (Hp : {| pol := PM2_5; unit := "mg/m3"; time := None;
                  value := Some 0.5%float; averaging := "1h" |}
               ∈ [ {| pol := PM2_5; unit := "mg/m3"; time := None;
                      value := Some 0.5%float; averaging := "1h" |} ])
    by left.
  assert (Hnd : ¬ derivable {| pol := PM2_5; unit := "mg/m3"; time := None;
                               value := Some 0.5%float; averaging := "1h" |}).
  { intros (t & v & Ht & _). discriminate Ht. }
  eexists _, _. split; [exact Hst|]. split; [exact Hp|]. split; [exact Hnd|].
  split; [exact sample_feed_quiet|].
  exact (setup_raises_on_underivable_pollutant None None None sample_time
           sample_time (sample_time + 1) sample_clock sample_feed _ _ Hst Hp Hnd
           sample_feed_quiet).
Defined.

Lemma setup_without_feed_witness :
  (TimeoutError = ClientConnectorError ∨ TimeoutError = TimeoutError)
  ∧ async_setup_platform None None None sample_time sample_time
      (Failed TimeoutError) sample_time sample_clock
    = (Fail (PlatformNotReady TimeoutError), StationsClient_init sample_time,
       [Log INFO; ApiCall; Log ERROR])
  ∧ 503 ≠ 200
  ∧ async_setup_platform None None None sample_time sample_time
      (Response 503 (Raise JSONDecodeError)) sample_time sample_clock
    = (Done [], StationsClient_init sample_time,
       [Log INFO; ApiCall; Log ERROR; Log DEBUG]).
Proof.
  destruct (setup_without_feed (host := sample_host) None None None sample_time
              sample_time sample_time sample_clock) as (Hfail & Hstatus & _).
  assert (H1 : TimeoutError = ClientConnectorError ∨ TimeoutError = TimeoutError)
    by (right; reflexivity).
  assert (H2 : 503 ≠ 200) by discriminate.
  split; [exact H1|]. split; [exact (Hfail TimeoutError H1)|].
  split; [exact H2|]. exact (Hstatus 503 (Raise JSONDecodeError) H2).
Defined.

(** ** The model at work on the sample data *)

Example sensors_sample :
  sensors (sample_station [sample_pm25]) sample_clock
  = Ok [ {| name := "PM2_5 (Kyiv, Main St, 1)";
            unique_id := "savednipro_001_kyiv_pm2_5";
            station_id := "SAVEDNIPRO_001";
            sensor_type := PM2_5;
            state := 1.5%float;
            device_state_attributes :=
              [ ("updated_at", AttrStr "63745056000000000us");
                ("unit_of_measurement", AttrStr "mg/m³");
                ("averaging", AttrStr "1h");
                ("city", AttrStr "Kyiv");
                ("address", AttrStr "Main St, 1");
                ("local_name", AttrStr "Main");
                ("timezone", AttrStr "+0200");
                ("latitude", AttrFloat 50.5%float);
                ("longitude", AttrFloat 30.5%float) ];
            deprecated := false |} ].
Proof. reflexivity. Qed.

Example cities_sample :
  cities {| stations := [ sample_station_in "Odesa"; sample_station_in "Kyiv";
                          sample_station_in "Kyiv" ];
            updated_at := sample_time |}
  = ["Kyiv"; "Odesa"].
Proof. reflexivity. Qed.

Example valid_stations_sample :
  id <$> valid_stations sample_feed = ["A"; "B"]
  ∧ Station_init sample_bad_record = Raise ValidationError.
Proof. split; reflexivity. Qed.

Example float_of_int_sample :
  float_of_int 3 = Valid 3%float
  ∧ float_of_int (2 ^ 1023) = Valid 0x1p+1023%float
  ∧ float_of_int (2 ^ 1024) = Escapes OverflowError
  ∧ float_of_int (10 ^ 400) = Escapes OverflowError.
Proof. split_and!; vm_compute; reflexivity. Qed.

Example update_sample_overflow :
  update sample_client true sample_time
    (Response 200
       (Ok (JArr [ JObj (sample_record "A"); JObj sample_overflow_record;
                   JObj (sample_record "B") ])))
    (sample_time + 1)
  = (Raise OverflowError,
     {| stations := valid_stations [sample_record "A"];
        updated_at := sample_time |},
     [Log INFO; ApiCall]).
Proof. vm_compute. reflexivity. Qed.

Example update_sample_not_a_list :
  update sample_client true sample_time (Response 200 (Ok (JInt 3))) sample_time
  = (Raise TypeError, {| stations := []; updated_at := sample_time |},
     [Log INFO; ApiCall]).
Proof. reflexivity. Qed.

Example get_sensor_sample :
  ∃ r, get_sensor sample_client "SAVEDNIPRO_001" TEMPERATURE (λ _, sample_time)
       = Ok (Some r)
    ∧ unique_id r = "savednipro_001_kyiv_temperature"
    ∧ state r = 21%float
    ∧ deprecated r = false.
Proof. eexists. split_and!; reflexivity. Qed.

Example setup_sample :
  ∃ entities trace,
    async_setup_platform (H := text_host) None (Some ["Odesa"]) None
      sample_time sample_time
      (Response 200 (Ok (JArr (JObj <$> sample_timed_feed))))
      (sample_time + 1) sample_clock
    = (Done entities,
       {| stations := valid_stations (H := text_host) sample_timed_feed;
          updated_at := sample_time + 1 |}, trace)
    ∧ SaveEcoBotSensor_name <$> entities
      = [ "PM10 (Odesa, Port)"; "HUMIDITY (Odesa, Port)";
          "PM10 (Odesa, Port)"; "HUMIDITY (Odesa, Port)" ]
    ∧ SaveEcoBotSensor_state <$> entities
      = [ Done (StateFloat 7%float); Done (StateStr "deprecated");
          Done (StateStr "deprecated"); Done (StateStr "deprecated") ].
Proof. eexists _, _. split_and!; reflexivity. Qed.

Example get_sensor_twice_sample :
  ∃ r, get_sensor sample_client_twice "SAVEDNIPRO_001" PM2_5 sample_clock
       = Ok (Some r)
    ∧ state r = 2.5%float.
Proof. eexists. split; reflexivity. Qed.
